(** * Input handlers of the roguelike: a shallow embedding of
    [input_handlers.py]

    The handlers are Python objects that share one engine and mutate it.
    The embedding keeps that shape: a store of handler objects addressed by
    reference, the engine's fields next to it, and every method a
    computation in a state-and-exception monad.  A ghost trace records the
    collaborator calls the handler code issues, so that "called once" and
    "called before" are statements about the trace. *)

From Stdlib Require Import ZArith Lia.
From stdpp Require Import base option list gmap strings.

Local Open Scope Z_scope.

(** ** Key symbols

    [tcod.event.KeySym] is an [IntEnum] over the SDL key codes; the source
    does arithmetic on it ([key - KeySym.a]), so a key is its integer code.
    Printable keys have their ASCII code, the others are
    [2^30 + scancode]. *)
Module KeySym.
Definition ESCAPE : Z := 27.
Definition PERIOD : Z := 46.
Definition a : Z := 97.
Definition b : Z := 98.
Definition d : Z := 100.
Definition g : Z := 103.
Definition h : Z := 104.
Definition i : Z := 105.
Definition j : Z := 106.
Definition k : Z := 107.
Definition l : Z := 108.
Definition n : Z := 110.
Definition u : Z := 117.
Definition v : Z := 118.
Definition y : Z := 121.
Definition z : Z := 122.
Definition HOME : Z := 1073741898.
Definition PAGEUP : Z := 1073741899.
Definition END : Z := 1073741901.
Definition PAGEDOWN : Z := 1073741902.
Definition RIGHT : Z := 1073741903.
Definition LEFT : Z := 1073741904.
Definition DOWN : Z := 1073741905.
Definition UP : Z := 1073741906.
Definition KP_1 : Z := 1073741913.
Definition KP_2 : Z := 1073741914.
Definition KP_3 : Z := 1073741915.
Definition KP_4 : Z := 1073741916.
Definition KP_5 : Z := 1073741917.
Definition KP_6 : Z := 1073741918.
Definition KP_7 : Z := 1073741919.
Definition KP_8 : Z := 1073741920.
Definition KP_9 : Z := 1073741921.
Definition CLEAR : Z := 1073741980.
Definition LCTRL : Z := 1073742048.
Definition LSHIFT : Z := 1073742049.
Definition LALT : Z := 1073742050.
Definition RCTRL : Z := 1073742052.
Definition RSHIFT : Z := 1073742053.
Definition RALT : Z := 1073742054.
End KeySym.

(** [MOVE_KEYS]: key to [(dx, dy)]. *)
Definition MOVE_KEYS : gmap Z (Z * Z) :=
  list_to_map
    [ (KeySym.UP, (0, -1)); (KeySym.DOWN, (0, 1));
      (KeySym.LEFT, (-1, 0)); (KeySym.RIGHT, (1, 0));
      (KeySym.HOME, (-1, -1)); (KeySym.END, (-1, 1));
      (KeySym.PAGEUP, (1, -1)); (KeySym.PAGEDOWN, (1, 1));
      (KeySym.KP_1, (-1, 1)); (KeySym.KP_2, (0, 1));
      (KeySym.KP_3, (1, 1)); (KeySym.KP_4, (-1, 0));
      (KeySym.KP_6, (1, 0)); (KeySym.KP_7, (-1, -1));
      (KeySym.KP_8, (0, -1)); (KeySym.KP_9, (1, -1));
      (KeySym.h, (-1, 0)); (KeySym.j, (0, 1));
      (KeySym.k, (0, -1)); (KeySym.l, (1, 0));
      (KeySym.y, (-1, -1)); (KeySym.u, (1, -1));
      (KeySym.b, (-1, 1)); (KeySym.n, (1, 1)) ].

Definition WAIT_KEYS : gset Z :=
  {[ KeySym.PERIOD; KeySym.KP_5; KeySym.CLEAR ]}.

(** The set literal of [AskUserEventHandler.ev_keydown]. *)
Definition MODIFIER_KEYS : gset Z :=
  {[ KeySym.LSHIFT; KeySym.RSHIFT; KeySym.LCTRL;
     KeySym.RCTRL; KeySym.LALT; KeySym.RALT ]}.

Definition CURSOR_Y_KEYS : gmap Z Z :=
  list_to_map
    [ (KeySym.UP, -1); (KeySym.DOWN, 1);
      (KeySym.PAGEUP, -10); (KeySym.PAGEDOWN, 10) ].

(** ** Events, handler objects, exceptions *)

(** The input events the handlers define a method for; every other tcod
    event reaches the [EventDispatch] default, which returns [None]. *)
Inductive Event : Type :=
  | KeyDown (sym : Z)
  | MouseMotion (tile_x tile_y : Z)
  | MouseButtonDown
  | Quit
  | OtherEvent.

(** A handler object: its class and, for the history viewer, its two
    attributes. *)
Inductive Handler : Type :=
  | EventHandler
  | AskUserEventHandler
  | InventoryEventHandler
  | InventoryActivateHandler
  | InventoryDropHandler
  | MainGameEventHandler
  | GameOverEventHandler
  | HistoryViewer (log_length cursor : Z).

(** Subclasses of [AskUserEventHandler], itself included. *)
Definition is_AskUser (h : Handler) : bool :=
  match h with
  | AskUserEventHandler | InventoryEventHandler
  | InventoryActivateHandler | InventoryDropHandler => true
  | _ => false
  end.

(** Subclasses of [InventoryEventHandler], itself included. *)
Definition is_Inventory (h : Handler) : bool :=
  match h with
  | InventoryEventHandler | InventoryActivateHandler
  | InventoryDropHandler => true
  | _ => false
  end.

Inductive Exn : Type :=
  | SystemExit
  | Impossible (args : list string)
  | IndexError
  | NotImplementedError
  | AttributeError
  | OtherError (tag : string).

Inductive Outcome (A : Type) : Type :=
  | Returned (x : A)
  | Raised (e : Exn).
Arguments Returned {A} x.
Arguments Raised {A} e.

(** Python's [l[i]]: a negative index counts from the end, and [None]
    stands for [IndexError]. *)
Definition py_index {A : Type} (l : list A) (i : Z) : option A :=
  if 0 <=? i then l !! Z.to_nat i
  else if - Z.of_nat (length l) <=? i
       then l !! Z.to_nat (Z.of_nat (length l) + i)
       else None.

(** ** The world outside this file

    Entities, items, colours, the map and the message entries are defined
    in modules this file only imports; they stay abstract. *)
Class Types : Type := {
  Actor : Type;
  Item : Type;
  Color : Type;
  Message : Type;
  GameMap : Type;
  ItemActionData : Type
}.

Section Model.
Context `{Types}.

(** The actions the handlers construct.  [ItemAction] stands for whatever
    [item.consumable.get_action] builds. *)
Inductive Action : Type :=
  | BumpAction (entity : Actor) (dx dy : Z)
  | WaitAction (entity : Actor)
  | PickupAction (entity : Actor)
  | DropItem (entity : Actor) (item : Item)
  | ItemAction (data : ItemActionData).

(** The store of handler objects and the fields of the one engine they all
    point to.  [game_map] also stands for the rest of the game state that
    actions change. *)
Record World : Type := mkWorld {
  handlers : list Handler;
  event_handler : nat;
  messages : list Message;
  mouse_location : Z * Z;
  player : Actor;
  game_map : GameMap
}.

(** Collaborator calls issued by the handler code, in order. *)
Inductive Call : Type :=
  | CallPerform (action : Action)
  | CallAddMessage (text : string) (fg : Color)
  | CallHandleEnemyTurns
  | CallUpdateFov.

Record State : Type := mkState {
  world : World;
  calls : list Call
}.

(** The collaborators.  [perform] and [get_action] may change anything in
    the world and may raise.  The engine's and the log's own methods are
    called for their effect and are taken to return; [add_message] works
    on the log alone. *)
Class Collaborators : Type := {
  perform : Action -> World -> World * Outcome unit;
  handle_enemy_turns : World -> World;
  update_fov : World -> World;
  add_message : string -> Color -> list Message -> list Message;
  in_bounds : GameMap -> Z -> Z -> bool;
  inventory_items : Actor -> list Item;
  consumable_get_action :
    Item -> Actor -> World -> World * Outcome (option Action);
  color_impossible : Color;
  color_invalid : Color
}.

Context `{Collaborators}.

(** ** The monad: state, and either a value or a raised exception *)

Definition M (A : Type) : Type := State -> State * Outcome A.

Definition ret {A : Type} (x : A) : M A := fun s => (s, Returned x).

Definition bind {A B : Type} (m : M A) (k : A -> M B) : M B :=
  fun s =>
    match m s with
    | (s', Returned x) => k x s'
    | (s', Raised e) => (s', Raised e)
    end.

Definition raise {A : Type} (e : Exn) : M A := fun s => (s, Raised e).

(** [try: m except ...: h]: [h e = None] when no clause matches [e]. *)
Definition try_except {A : Type} (m : M A) (h : Exn -> option (M A)) : M A :=
  fun s =>
    match m s with
    | (s', Returned x) => (s', Returned x)
    | (s', Raised e) =>
        match h e with
        | Some k => k s'
        | None => (s', Raised e)
        end
    end.

#[local] Instance M_ret : MRet M := @ret.
#[local] Instance M_bind : MBind M := fun A B k m => bind m k.

Definition gets {A : Type} (f : World -> A) : M A :=
  fun s => (s, Returned (f (world s))).

Definition modify (f : World -> World) : M unit :=
  fun s => (mkState (f (world s)) (calls s), Returned tt).

Definition log_call (c : Call) : M unit :=
  fun s => (mkState (world s) (calls s ++ [c]), Returned tt).

(** Run an opaque collaborator on the world. *)
Definition run {A : Type} (f : World -> World * Outcome A) : M A :=
  fun s => (mkState (f (world s)).1 (calls s), (f (world s)).2).

(** ** Field updates and the object store *)

Definition set_event_handler_field (r : nat) (w : World) : World :=
  mkWorld (handlers w) r (messages w) (mouse_location w) (player w)
          (game_map w).

Definition set_messages (ms : list Message) (w : World) : World :=
  mkWorld (handlers w) (event_handler w) ms (mouse_location w) (player w)
          (game_map w).

Definition set_mouse_location (p : Z * Z) (w : World) : World :=
  mkWorld (handlers w) (event_handler w) (messages w) p (player w)
          (game_map w).

Definition set_handlers (hs : list Handler) (w : World) : World :=
  mkWorld hs (event_handler w) (messages w) (mouse_location w) (player w)
          (game_map w).

(** A constructor call: the new object goes to the end of the store. *)
Definition new_object (h : Handler) : M nat :=
  r ← gets (fun w => length (handlers w));
  modify (fun w => set_handlers (handlers w ++ [h]) w);;
  mret r.

(** The object [self] points to. *)
Definition get_object (self : nat) : M Handler :=
  o ← gets (fun w => handlers w !! self);
  match o with
  | Some h => mret h
  | None => raise AttributeError
  end.

(** [self.engine.event_handler = r] *)
Definition set_event_handler (r : nat) : M unit :=
  modify (set_event_handler_field r).

(** [self.cursor] and [self.log_length]: only a history viewer has them. *)
Definition get_cursor (self : nat) : M Z :=
  h ← get_object self;
  match h with
  | HistoryViewer _ c => mret c
  | _ => raise AttributeError
  end.

Definition get_log_length (self : nat) : M Z :=
  h ← get_object self;
  match h with
  | HistoryViewer n _ => mret n
  | _ => raise AttributeError
  end.

(** [self.cursor = c]; it is only run by [HistoryViewer.ev_keydown], whose
    [self] is a viewer. *)
Definition set_cursor (self : nat) (c : Z) : M unit :=
  h ← get_object self;
  match h with
  | HistoryViewer n _ =>
      modify (fun w =>
                set_handlers (<[self := HistoryViewer n c]> (handlers w)) w)
  | _ => raise AttributeError
  end.

(** ** Calls on the engine *)

(** [action.perform()] *)
Definition call_perform (action : Action) : M unit :=
  log_call (CallPerform action);;
  run (perform action).

(** [self.engine.message_log.add_message(text, fg)] *)
Definition engine_add_message (text : string) (fg : Color) : M unit :=
  log_call (CallAddMessage text fg);;
  modify (fun w => set_messages (add_message text fg (messages w)) w).

(** [self.engine.handle_enemy_turns()] *)
Definition engine_handle_enemy_turns : M unit :=
  log_call CallHandleEnemyTurns;;
  modify handle_enemy_turns.

(** [self.engine.update_fov()] *)
Definition engine_update_fov : M unit :=
  log_call CallUpdateFov;;
  modify update_fov.

(** [exc.args[0]] *)
Definition args_0 (args : list string) : M string :=
  match py_index args 0 with
  | Some x => mret x
  | None => raise IndexError
  end.

(** ** class EventHandler *)

(** [EventHandler.handle_action].  The [try] block answers [Some b] when
    its [except] clause returned [b], and [None] when control falls
    through to the statements after it. *)
Definition EventHandler_handle_action (self : nat) (action : option Action)
  : M bool :=
  match action with
  | None => mret false
  | Some act =>
      early ← try_except
        (call_perform act;; mret None)
        (fun exc =>
           match exc with
           | Impossible args =>
               Some (reason ← args_0 args;
                     engine_add_message reason color_impossible;;
                     mret (Some false))
           | _ => None
           end);
      match early with
      | Some b => mret b
      | None =>
          engine_handle_enemy_turns;;
          engine_update_fov;;
          mret true
      end
  end.

(** [EventHandler.ev_mousemotion] *)
Definition EventHandler_ev_mousemotion (self : nat) (tile_x tile_y : Z)
  : M (option Action) :=
  inb ← gets (fun w => in_bounds (game_map w) tile_x tile_y);
  (if inb : bool then modify (set_mouse_location (tile_x, tile_y))
   else mret tt);;
  mret None.

(** [EventHandler.ev_quit] *)
Definition EventHandler_ev_quit (self : nat) : M (option Action) :=
  raise SystemExit.

(** ** class AskUserEventHandler *)

(** [MainGameEventHandler(self.engine)] *)
Definition new_MainGameEventHandler : M nat :=
  new_object MainGameEventHandler.

(** [AskUserEventHandler.handle_action] *)
Definition AskUserEventHandler_handle_action (self : nat)
    (action : option Action) : M bool :=
  turn ← EventHandler_handle_action self action;
  if turn : bool then
    r ← new_MainGameEventHandler;
    set_event_handler r;;
    mret true
  else mret false.

(** [AskUserEventHandler.on_exit] *)
Definition AskUserEventHandler_on_exit (self : nat) : M (option Action) :=
  r ← new_MainGameEventHandler;
  set_event_handler r;;
  mret None.

(** [self.on_exit()]: no subclass overrides it. *)
Definition on_exit (self : nat) : M (option Action) :=
  h ← get_object self;
  if is_AskUser h then AskUserEventHandler_on_exit self
  else raise AttributeError.

(** [AskUserEventHandler.ev_keydown] *)
Definition AskUserEventHandler_ev_keydown (self : nat) (sym : Z)
  : M (option Action) :=
  if bool_decide (sym ∈ MODIFIER_KEYS) then mret None
  else on_exit self.

(** [AskUserEventHandler.ev_mousebuttondown] *)
Definition AskUserEventHandler_ev_mousebuttondown (self : nat)
  : M (option Action) :=
  on_exit self.

(** ** class InventoryEventHandler and its two subclasses *)

(** [InventoryEventHandler.on_item_selected] *)
Definition InventoryEventHandler_on_item_selected (self : nat) (item : Item)
  : M (option Action) :=
  raise NotImplementedError.

(** [InventoryActivateHandler.on_item_selected] *)
Definition InventoryActivateHandler_on_item_selected (self : nat)
    (item : Item) : M (option Action) :=
  p ← gets player;
  run (consumable_get_action item p).

(** [InventoryDropHandler.on_item_selected] *)
Definition InventoryDropHandler_on_item_selected (self : nat) (item : Item)
  : M (option Action) :=
  p ← gets player;
  mret (Some (DropItem p item)).

(** [self.on_item_selected(item)], resolved on the class of [self]. *)
Definition on_item_selected (self : nat) (item : Item) : M (option Action) :=
  h ← get_object self;
  match h with
  | InventoryEventHandler => InventoryEventHandler_on_item_selected self item
  | InventoryActivateHandler =>
      InventoryActivateHandler_on_item_selected self item
  | InventoryDropHandler => InventoryDropHandler_on_item_selected self item
  | _ => raise AttributeError
  end.

(** [InventoryEventHandler.ev_keydown] *)
Definition InventoryEventHandler_ev_keydown (self : nat) (sym : Z)
  : M (option Action) :=
  p ← gets player;
  let key := sym in
  let index := key - KeySym.a in
  if (0 <=? index) && (index <=? 26) then
    match py_index (inventory_items p) index with
    | None =>
        engine_add_message "Invalid entry." color_invalid;;
        mret None
    | Some selected_item => on_item_selected self selected_item
    end
  else AskUserEventHandler_ev_keydown self sym.

(** ** class HistoryViewer *)

(** [HistoryViewer(self.engine)], that is [HistoryViewer.__init__]. *)
Definition new_HistoryViewer : M nat :=
  log_length ← gets (fun w => Z.of_nat (length (messages w)));
  new_object (HistoryViewer log_length (log_length - 1)).

(** [HistoryViewer.ev_keydown].  [adjust] is never [0], so one of the two
    tests reads [self.cursor] whatever the key. *)
Definition HistoryViewer_ev_keydown (self : nat) (sym : Z)
  : M (option Action) :=
  match CURSOR_Y_KEYS !! sym with
  | Some adjust =>
      cursor ← get_cursor self;
      log_length ← get_log_length self;
      if (adjust <? 0) && (cursor =? 0) then
        set_cursor self (log_length - 1)
      else if (adjust >? 0) && (cursor =? log_length - 1) then
        set_cursor self 0
      else
        set_cursor self (Z.max 0 (Z.min (cursor + adjust) (log_length - 1)))
  | None =>
      if bool_decide (sym = KeySym.HOME) then set_cursor self 0
      else if bool_decide (sym = KeySym.END) then
        log_length ← get_log_length self;
        set_cursor self (log_length - 1)
      else
        r ← new_MainGameEventHandler;
        set_event_handler r
  end;;
  mret None.

(** ** class MainGameEventHandler *)

(** [MainGameEventHandler.ev_keydown] *)
Definition MainGameEventHandler_ev_keydown (self : nat) (sym : Z)
  : M (option Action) :=
  let key := sym in
  p ← gets player;
  match MOVE_KEYS !! key with
  | Some (dx, dy) => mret (Some (BumpAction p dx dy))
  | None =>
      if bool_decide (key ∈ WAIT_KEYS) then mret (Some (WaitAction p))
      else if bool_decide (key = KeySym.ESCAPE) then raise SystemExit
      else if bool_decide (key = KeySym.v) then
        r ← new_HistoryViewer;
        set_event_handler r;;
        mret None
      else if bool_decide (key = KeySym.g) then mret (Some (PickupAction p))
      else if bool_decide (key = KeySym.i) then
        r ← new_object InventoryActivateHandler;
        set_event_handler r;;
        mret None
      else if bool_decide (key = KeySym.d) then
        r ← new_object InventoryDropHandler;
        set_event_handler r;;
        mret None
      else mret None
  end.

(** ** class GameOverEventHandler *)

(** [GameOverEventHandler.ev_keydown] *)
Definition GameOverEventHandler_ev_keydown (self : nat) (sym : Z)
  : M (option Action) :=
  if bool_decide (sym = KeySym.ESCAPE) then raise SystemExit
  else mret None.

(** ** Method resolution and event dispatch *)

(** [self.handle_action(action)] *)
Definition handle_action (self : nat) (action : option Action) : M bool :=
  h ← get_object self;
  if is_AskUser h then AskUserEventHandler_handle_action self action
  else EventHandler_handle_action self action.

(** [self.ev_keydown(event)]; the base class inherits the
    [EventDispatch] default. *)
Definition ev_keydown (self : nat) (sym : Z) : M (option Action) :=
  h ← get_object self;
  match h with
  | EventHandler => mret None
  | AskUserEventHandler => AskUserEventHandler_ev_keydown self sym
  | InventoryEventHandler | InventoryActivateHandler
  | InventoryDropHandler => InventoryEventHandler_ev_keydown self sym
  | MainGameEventHandler => MainGameEventHandler_ev_keydown self sym
  | GameOverEventHandler => GameOverEventHandler_ev_keydown self sym
  | HistoryViewer _ _ => HistoryViewer_ev_keydown self sym
  end.

(** [self.ev_mousebuttondown(event)] *)
Definition ev_mousebuttondown (self : nat) : M (option Action) :=
  h ← get_object self;
  if is_AskUser h then AskUserEventHandler_ev_mousebuttondown self
  else mret None.

(** [self.dispatch(event)]: the method named after the event's type. *)
Definition dispatch (self : nat) (event : Event) : M (option Action) :=
  match event with
  | KeyDown sym => ev_keydown self sym
  | MouseMotion tile_x tile_y =>
      _ ← get_object self;
      EventHandler_ev_mousemotion self tile_x tile_y
  | MouseButtonDown => ev_mousebuttondown self
  | Quit =>
      _ ← get_object self;
      EventHandler_ev_quit self
  | OtherEvent =>
      _ ← get_object self;
      mret None
  end.

(** [EventHandler.handle_events]: Python looks [self.handle_action] up
    before it evaluates the argument. *)
Definition handle_events (self : nat) (event : Event) : M unit :=
  h ← get_object self;
  action ← dispatch self event;
  (if is_AskUser h then AskUserEventHandler_handle_action self action
   else EventHandler_handle_action self action);;
  mret tt.

(** The cursor of the viewer at [self], when there is one. *)
Definition cursor_of (self : nat) (s : State) : option Z :=
  match handlers (world s) !! self with
  | Some (HistoryViewer _ c) => Some c
  | _ => None
  end.

(** The class of the active handler. *)
Definition active_handler (w : World) : option Handler :=
  handlers w !! event_handler w.

(** ** Vocabulary of the properties *)

(** The state a constructor call and the assignment to
    [engine.event_handler] leave. *)
Definition switched_to (h : Handler) (s : State) : State :=
  mkState
    (set_event_handler_field (length (handlers (world s)))
       (set_handlers (handlers (world s) ++ [h]) (world s)))
    (calls s).

(** The world as the action's [perform] left it; without an action, the
    world as it was. *)
Definition world_after_perform (action : option Action) (w : World) : World :=
  match action with
  | None => w
  | Some act => (perform act w).1
  end.

(** The state after [self.cursor = c] on the viewer at [self]. *)
Definition with_cursor (self : nat) (n c : Z) (s : State) : State :=
  mkState
    (set_handlers (<[self := HistoryViewer n c]> (handlers (world s)))
       (world s))
    (calls s).

(** The cursor the three branches under [if event.sym in CURSOR_Y_KEYS]
    assign. *)
Definition moved_cursor (n c adjust : Z) : Z :=
  if (adjust <? 0) && (c =? 0) then n - 1
  else if (adjust >? 0) && (c =? n - 1) then 0
  else Z.max 0 (Z.min (c + adjust) (n - 1)).

(** The viewer at [self] has snapshot [n] and a cursor in
    [[0, n - 1]]. *)
Definition cursor_in_range (self : nat) (n : Z) (w : World) : Prop :=
  exists c : Z,
    handlers w !! self = Some (HistoryViewer n c) /\ 0 <= c <= n - 1.

(** What can happen while the viewer at [self] is open: a key press
    reaches it, or a message is added to the log. *)
Inductive ViewerOp : Type :=
  | Press (sym : Z)
  | Append (text : string) (fg : Color).

Definition viewer_op (self : nat) (op : ViewerOp) : M unit :=
  match op with
  | Press sym => bind (HistoryViewer_ev_keydown self sym) (fun _ => ret tt)
  | Append text fg => engine_add_message text fg
  end.

Fixpoint viewer_ops (self : nat) (ops : list ViewerOp) : M unit :=
  match ops with
  | [] => ret tt
  | op :: ops' => bind (viewer_op self op) (fun _ => viewer_ops self ops')
  end.

(** The state [HistoryViewer(self.engine)] leaves: a new viewer whose
    [log_length] is the length of the log and whose cursor is one less. *)
Definition entered_viewer (s : State) : State :=
  mkState
    (set_handlers
       (handlers (world s) ++
          [HistoryViewer (Z.of_nat (length (messages (world s))))
                         (Z.of_nat (length (messages (world s))) - 1)])
       (world s))
    (calls s).

End Model.

(** ** A concrete world

    Small instances of the abstract parts, to run the handlers on: an
    actor is its inventory, a message is a text with its colour, the log
    appends, and bumping in place is the one impossible action. *)
Module Demo.

Definition types : Types := {|
  Actor := list string;
  Item := string;
  Color := Z * Z * Z;
  Message := string * (Z * Z * Z);
  GameMap := Z * Z;
  ItemActionData := string
|}.

Definition demo_perform (act : @Action types) (w : @World types)
  : @World types * Outcome unit :=
  match act with
  | BumpAction _ 0 0 => (w, Raised (Impossible ["That way is blocked."%string]))
  | _ => (w, Returned tt)
  end.

Definition demo_get_action (item : string) (entity : list string)
    (w : @World types) : @World types * Outcome (option (@Action types)) :=
  (w, Returned (Some (@ItemAction types item))).

Definition collaborators : @Collaborators types := {|
  perform := demo_perform;
  handle_enemy_turns := fun w => w;
  update_fov := fun w => w;
  add_message := fun text fg ms => ms ++ [(text, fg)];
  in_bounds := fun m x y =>
    (0 <=? x) && (x <? m.1) && (0 <=? y) && (y <? m.2);
  inventory_items := fun (p : @Actor types) => p;
  consumable_get_action := demo_get_action;
  color_impossible := (128, 128, 128);
  color_invalid := (255, 255, 0)
|}.

(** One handler object of class [h], active, and the given log and
    inventory. *)
Definition state_with (h : Handler) (log : list (string * (Z * Z * Z)))
    (inventory : list string) : @State types :=
  @mkState types (@mkWorld types [h] 0%nat log (0, 0) inventory (80, 43)) [].

Definition welcome : list (string * (Z * Z * Z)) :=
  [("Hello and welcome."%string, (32, 160, 255))].

(** Inputs for the examples below. *)
Definition inventory : list string := ["potion"; "scroll"]%string.

Definition playing : @State types :=
  state_with MainGameEventHandler welcome inventory.

Definition dropping : @State types :=
  state_with InventoryDropHandler welcome inventory.

Definition prompting : @State types :=
  state_with AskUserEventHandler welcome inventory.

Definition game_over : @State types :=
  state_with GameOverEventHandler welcome inventory.

Definition viewing : @State types :=
  state_with (HistoryViewer 5 0) welcome inventory.

Definition silent : @State types :=
  state_with MainGameEventHandler [] inventory.

Definition wait : @Action types := @WaitAction types inventory.

Definition bump_nowhere : @Action types := @BumpAction types inventory 0 0.

Definition drop_potion : @Action types :=
  @DropItem types inventory "potion"%string.

Definition activity : list (@ViewerOp types) :=
  [ @Press types KeySym.UP;
    @Append types "You hear a noise."%string (255, 255, 255);
    @Press types KeySym.PAGEDOWN;
    @Press types KeySym.DOWN ].

End Demo.

(** ** Rendering

    [on_render] draws on a console that belongs to tcod.  The embedding
    keeps the calls a handler issues, in order and with their arguments,
    each call taken to return, but for the console constructor, which
    refuses a negative size; [engine.render] is a collaborator that may
    change the world. *)

Class Rendering `{Types} : Type := {
  engine_render : World -> World;
  actor_x : Actor -> Z;
  item_name : Item -> string
}.

(** The console handed to [on_render], and the one the history viewer
    creates. *)
Inductive Console : Type :=
  | Screen
  | LogConsole.

(** The texts printed: a literal, or the f-string
    ["({item_key}) {item.name}"], with the code point [chr] is given. *)
Inductive Text : Type :=
  | Plain (text : string)
  | ItemLine (item_key : Z) (name : string).

(** Python's [l[:stop]]. *)
Definition py_slice_to {A : Type} (l : list A) (stop : Z) : list A :=
  let len := Z.of_nat (length l) in
  let stop := if stop <? 0 then Z.max 0 (stop + len) else Z.min stop len in
  take (Z.to_nat stop) l.

(** The class attribute [TITLE]. *)
Definition TITLE (h : Handler) : option string :=
  match h with
  | InventoryEventHandler => Some "<missing title>"%string
  | InventoryActivateHandler => Some "Select an item to use"%string
  | InventoryDropHandler => Some "Select an item to drop"%string
  | _ => None
  end.

Section RenderModel.
Context `{C : Collaborators} {Rd : Rendering}.

Inductive Draw : Type :=
  | EngineRender
  | NewConsole (width height : Z)
  | DrawFrame (on : Console) (x y width height : Z) (title : string)
      (clear : bool) (fg bg : option (Z * Z * Z))
  | Print (on : Console) (x y : Z) (text : Text)
  | PrintBoxCentered (on : Console) (x y width height : Z) (text : string)
  | RenderMessages (on : Console) (x y width height : Z)
      (shown_messages : list Message)
  | Blit (source dest : Console) (dest_x dest_y : Z).

Record RenderState : Type := mkRenderState {
  shown : World;
  draws : list Draw
}.

Definition R (A : Type) : Type := RenderState -> RenderState * Outcome A.

Definition rret {A : Type} (x : A) : R A := fun st => (st, Returned x).

Definition rbind {A B : Type} (m : R A) (k : A -> R B) : R B :=
  fun st =>
    match m st with
    | (st', Returned x) => k x st'
    | (st', Raised e) => (st', Raised e)
    end.

#[local] Instance R_ret : MRet R := @rret.
#[local] Instance R_bind : MBind R := fun A B k m => rbind m k.

Definition rraise {A : Type} (e : Exn) : R A := fun st => (st, Raised e).

Definition rgets {A : Type} (f : World -> A) : R A :=
  fun st => (st, Returned (f (shown st))).

Definition emit (d : Draw) : R unit :=
  fun st => (mkRenderState (shown st) (draws st ++ [d]), Returned tt).

Definition rmodify (f : World -> World) : R unit :=
  fun st => (mkRenderState (f (shown st)) (draws st), Returned tt).

Definition render_object (self : nat) : R Handler :=
  o ← rgets (fun w => handlers w !! self);
  match o with
  | Some h => mret h
  | None => rraise AttributeError
  end.

(** [self.TITLE] *)
Definition get_TITLE (self : nat) : R string :=
  h ← render_object self;
  match TITLE h with
  | Some title => mret title
  | None => rraise AttributeError
  end.

(** [EventHandler.on_render] *)
Definition EventHandler_on_render (self : nat) : R unit :=
  emit EngineRender;;
  rmodify engine_render.

(** The loop [for i, item in enumerate(items)], from index [i] on. *)
Fixpoint print_items (x y i : Z) (items : list Item) : R unit :=
  match items with
  | [] => mret tt
  | item :: rest =>
      let item_key := 97 + i in
      emit (Print Screen (x + 1) (y + i + 1)
              (ItemLine item_key (item_name item)));;
      print_items x y (i + 1) rest
  end.

(** [InventoryEventHandler.on_render] *)
Definition InventoryEventHandler_on_render (self : nat) : R unit :=
  EventHandler_on_render self;;
  number_of_items_in_inventory ←
    rgets (fun w => Z.of_nat (length (inventory_items (player w))));
  let height := number_of_items_in_inventory + 2 in
  let height := if height <=? 3 then 3 else height in
  player_x ← rgets (fun w => actor_x (player w));
  let x := if player_x <=? 30 then 40 else 0 in
  let y := 0 in
  title ← get_TITLE self;
  let width := Z.of_nat (String.length title) + 4 in
  emit (DrawFrame Screen x y width height title true
          (Some (255, 255, 255)) (Some (0, 0, 0)));;
  if number_of_items_in_inventory >? 0 then
    items ← rgets (fun w => inventory_items (player w));
    print_items x y 0 items
  else
    emit (Print Screen (x + 1) (y + 1) (Plain "(Empty)")).

(** [tcod.console.Console(width, height)]: a negative dimension raises
    [ValueError]. *)
Definition new_console (width height : Z) : R unit :=
  if (width <? 0) || (height <? 0) then rraise (OtherError "ValueError")
  else emit (NewConsole width height).

(** [HistoryViewer.on_render], on a console of the given size. *)
Definition HistoryViewer_on_render (self : nat)
    (console_width console_height : Z) : R unit :=
  EventHandler_on_render self;;
  let log_width := console_width - 6 in
  let log_height := console_height - 6 in
  new_console log_width log_height;;
  emit (DrawFrame LogConsole 0 0 log_width log_height "" true None None);;
  emit (PrintBoxCentered LogConsole 0 0 log_width 1 "┤Message history├");;
  all_messages ← rgets messages;
  h ← render_object self;
  match h with
  | HistoryViewer _ cursor =>
      emit (RenderMessages LogConsole 1 1 (log_width - 2) (log_height - 2)
              (py_slice_to all_messages (cursor + 1)));;
      emit (Blit LogConsole Screen 3 3)
  | _ => rraise AttributeError
  end.

(** [self.on_render(console)], resolved on the class of [self]. *)
Definition on_render (self : nat) (console_width console_height : Z)
  : R unit :=
  h ← render_object self;
  match h with
  | InventoryEventHandler | InventoryActivateHandler
  | InventoryDropHandler => InventoryEventHandler_on_render self
  | HistoryViewer _ _ =>
      HistoryViewer_on_render self console_width console_height
  | _ => EventHandler_on_render self
  end.

(** The lines [print_items] prints. *)
Fixpoint item_lines (x y i : Z) (items : list Item) : list Draw :=
  match items with
  | [] => []
  | item :: rest =>
      Print Screen (x + 1) (y + i + 1) (ItemLine (97 + i) (item_name item))
        :: item_lines x y (i + 1) rest
  end.

End RenderModel.

(** ** Handler objects across an event *)

Section Frames.
Context `{Types}.

(** Same class, and for a history viewer the same snapshot. *)
Definition same_class (h0 h1 : Handler) : Prop :=
  match h0, h1 with
  | HistoryViewer n _, HistoryViewer m _ => n = m
  | _, _ => h0 = h1
  end.

(** From [w] to [w'] every handler object is still there with its class,
    only the object at [self] may differ, and an active handler that
    pointed to an object still does. *)
Definition handlers_kept (self : nat) (w w' : World) : Prop :=
  (forall (i : nat) (h0 : Handler),
     handlers w !! i = Some h0 ->
     exists h1 : Handler,
       handlers w' !! i = Some h1 /\ same_class h0 h1 /\
       (i <> self -> h1 = h0)) /\
  (is_Some (handlers w !! event_handler w) ->
   is_Some (handlers w' !! event_handler w')).

End Frames.

(** More of the concrete world.  In the cursed one the scroll cannot be
    dropped, waiting is impossible without a reason, picking up fails
    with another error and no item has an action.  Then names and a
    position for the menu. *)
Module DemoMore.

Definition is_scroll (item : string) : bool :=
  bool_decide (item = "scroll"%string).

Definition cursed_perform (act : @Action Demo.types) (w : @World Demo.types)
  : @World Demo.types * Outcome unit :=
  match act with
  | DropItem _ item =>
      if is_scroll item
      then (w, Raised (Impossible ["The scroll is cursed."%string]))
      else (w, Returned tt)
  | PickupAction _ => (w, Raised (OtherError "KeyError"))
  | WaitAction _ => (w, Raised (Impossible []))
  | _ => (w, Returned tt)
  end.

Definition cursed_get_action (item : string) (entity : list string)
    (w : @World Demo.types)
  : @World Demo.types * Outcome (option (@Action Demo.types)) :=
  (w, Returned None).

Definition cursed : @Collaborators Demo.types := {|
  perform := cursed_perform;
  handle_enemy_turns := fun w => w;
  update_fov := fun w => w;
  add_message := fun text fg ms => ms ++ [(text, fg)];
  in_bounds := fun m x y =>
    (0 <=? x) && (x <? m.1) && (0 <=? y) && (y <? m.2);
  inventory_items := fun (p : @Actor Demo.types) => p;
  consumable_get_action := cursed_get_action;
  color_impossible := (128, 128, 128);
  color_invalid := (255, 255, 0)
|}.

Definition rendering : @Rendering Demo.types := {|
  engine_render := fun w => w;
  actor_x := fun _ => 12;
  item_name := fun (item : @Item Demo.types) => item
|}.

Definition choosing : @State Demo.types :=
  Demo.state_with InventoryEventHandler Demo.welcome Demo.inventory.

Definition use_menu : @State Demo.types :=
  Demo.state_with InventoryActivateHandler Demo.welcome Demo.inventory.

Definition drop_menu : @RenderState Demo.types :=
  @mkRenderState Demo.types (world Demo.dropping) [].

Definition log_view : @RenderState Demo.types :=
  @mkRenderState Demo.types
    (world (Demo.state_with (HistoryViewer 3 1)
              [("one"%string, (255, 255, 255));
               ("two"%string, (255, 255, 255));
               ("three"%string, (255, 255, 255))]
              Demo.inventory))
    [].

Definition crashing : @Action Demo.types :=
  @PickupAction Demo.types Demo.inventory.

Definition drop_scroll : @Action Demo.types :=
  @DropItem Demo.types Demo.inventory "scroll"%string.

End DemoMore.

(** ** Properties *)

Section Properties.
Context `{Collaborators}.

(** *** How the basic operations compute *)

Lemma get_object_lookup (self : nat) (h : Handler) (s : State) :
  handlers (world s) !! self = Some h ->
  get_object self s = (s, Returned h).
Proof.
  intros Hl. unfold get_object, gets, mbind, M_bind, bind. cbn.
  rewrite Hl. reflexivity.
Qed.

Lemma active_switched_to (h : Handler) (s : State) :
  active_handler (world (switched_to h s)) = Some h.
Proof.
  unfold active_handler, switched_to. cbn.
  apply list_lookup_middle. reflexivity.
Qed.

Lemma on_exit_switches (self : nat) (h : Handler) (s : State) :
  handlers (world s) !! self = Some h ->
  is_AskUser h = true ->
  on_exit self s = (switched_to MainGameEventHandler s, Returned None).
Proof.
  intros Hl Hask. unfold on_exit, mbind, M_bind, bind.
  rewrite (get_object_lookup _ _ _ Hl), Hask. reflexivity.
Qed.

Lemma args_0_cons (reason : string) (rest : list string) :
  args_0 (reason :: rest) = ret reason.
Proof. reflexivity. Qed.

(** *** The turn driver *)

(** C1. [EventHandler.handle_action] without an action returns [False] and
    leaves the state as it was; with an action whose [perform] returns, it
    calls [handle_enemy_turns] once, then [update_fov] once, and returns
    [True]. *)
Theorem handle_action_turn (self : nat) (act : Action) (s : State) (w1 : World) :
  EventHandler_handle_action self None s = (s, Returned false) /\
  (perform act (world s) = (w1, Returned tt) ->
   EventHandler_handle_action self (Some act) s =
     (mkState (update_fov (handle_enemy_turns w1))
        (calls s ++ [CallPerform act] ++ [CallHandleEnemyTurns; CallUpdateFov]),
      Returned true)).
Proof.
  split; [reflexivity |]. intros Hp.
  unfold EventHandler_handle_action, try_except, call_perform, run,
    log_call, engine_handle_enemy_turns, engine_update_fov, modify,
    mbind, M_bind, bind, mret, M_ret, ret.
  cbn. rewrite Hp. cbn. rewrite <- !app_assoc. reflexivity.
Qed.

(** C2. When [perform] raises [Impossible(reason)], [handle_action] adds
    [reason] to the message log with [color.impossible], returns [False],
    and calls neither [handle_enemy_turns] nor [update_fov]. *)
Theorem handle_action_impossible (self : nat) (act : Action) (s : State)
    (w1 : World) (reason : string) (rest : list string) :
  perform act (world s) = (w1, Raised (Impossible (reason :: rest))) ->
  exists issued : list Call,
    EventHandler_handle_action self (Some act) s =
      (mkState
         (set_messages (add_message reason color_impossible (messages w1)) w1)
         (calls s ++ issued),
       Returned false) /\
    issued = [CallPerform act; CallAddMessage reason color_impossible] /\
    (CallHandleEnemyTurns ∉ issued) /\
    (CallUpdateFov ∉ issued).
Proof.
  intros Hp. eexists. split; [| split; [reflexivity |]].
  - unfold EventHandler_handle_action, try_except, call_perform, run,
      log_call, engine_add_message, modify,
      mbind, M_bind, bind, mret, M_ret, ret.
    cbn. rewrite Hp. cbn. rewrite args_0_cons. cbn.
    rewrite <- !app_assoc. reflexivity.
  - split; intros Hin; repeat (apply elem_of_cons in Hin as [Hin | Hin];
      [discriminate |]); inversion Hin.
Qed.

(** *** Modal prompts *)

(** What the base [handle_action] can do to the world: when it returns
    [False], only the message log differs from what [perform] left. *)
Lemma EventHandler_handle_action_false (self : nat) (action : option Action)
    (s s' : State) :
  EventHandler_handle_action self action s = (s', Returned false) ->
  event_handler (world s') = event_handler (world_after_perform action (world s)) /\
  handlers (world s') = handlers (world_after_perform action (world s)).
Proof.
  destruct action as [act |]; cbn.
  - unfold EventHandler_handle_action, try_except, call_perform, run,
      log_call, engine_add_message, engine_handle_enemy_turns,
      engine_update_fov, modify, mbind, M_bind, bind, mret, M_ret, ret.
    cbn. destruct (perform act (world s)) as [w1 [[] | e]]; cbn.
    + intros [= _ Hb].
    + destruct e as [| [| reason rest] | | | |]; cbn; try discriminate.
      rewrite args_0_cons. cbn. intros [= <-]. cbn. split; reflexivity.
  - intros [= <-]. split; reflexivity.
Qed.

(** C3. For a handler of class [AskUserEventHandler] or below,
    [handle_action] is the wrapper around the base [handle_action]: when
    the base returns [True], it makes a new [MainGameEventHandler] the
    engine's active handler and returns [True]; when the base returns
    [False], it returns [False] with the state the base left, where the
    active handler and the handler objects are those the action's
    [perform] left. *)
Theorem ask_user_handle_action_exit (self : nat) (h : Handler)
    (action : option Action) (s s1 : State) (turn : bool) :
  handlers (world s) !! self = Some h ->
  is_AskUser h = true ->
  EventHandler_handle_action self action s = (s1, Returned turn) ->
  (turn = true ->
     handle_action self action s
       = (switched_to MainGameEventHandler s1, Returned true) /\
     AskUserEventHandler_handle_action self action s
       = (switched_to MainGameEventHandler s1, Returned true) /\
     active_handler (world (switched_to MainGameEventHandler s1))
       = Some MainGameEventHandler) /\
  (turn = false ->
     handle_action self action s = (s1, Returned false) /\
     AskUserEventHandler_handle_action self action s
       = (s1, Returned false) /\
     event_handler (world s1) =
       event_handler (world_after_perform action (world s)) /\
     handlers (world s1) =
       handlers (world_after_perform action (world s))).
Proof.
  intros Hl Hask Hbase.
  assert (Hwrap : AskUserEventHandler_handle_action self action s
                  = (if turn then switched_to MainGameEventHandler s1 else s1,
                     Returned turn)).
  { unfold AskUserEventHandler_handle_action, mbind, M_bind at 1, bind at 1.
    rewrite Hbase. destruct turn; reflexivity. }
  assert (Hresolve : handle_action self action s
                     = AskUserEventHandler_handle_action self action s).
  { unfold handle_action, mbind, M_bind at 1, bind at 1.
    rewrite (get_object_lookup _ _ _ Hl), Hask. reflexivity. }
  split; intros ->.
  - rewrite Hresolve, Hwrap. repeat split.
    exact (active_switched_to MainGameEventHandler s1).
  - rewrite Hresolve, Hwrap. split; [reflexivity |]. split; [reflexivity |].
    exact (EventHandler_handle_action_false _ _ _ _ Hbase).
Qed.

(** *** Quitting *)

(** C7. Whatever the class of the handler, a quit event makes [dispatch],
    and so [handle_events], raise [SystemExit]; the escape key does the
    same in [MainGameEventHandler] and in [GameOverEventHandler]. *)
Theorem quit_raises_SystemExit (self : nat) (h : Handler) (s : State) :
  handlers (world s) !! self = Some h ->
  dispatch self Quit s = (s, Raised SystemExit) /\
  handle_events self Quit s = (s, Raised SystemExit) /\
  (h = MainGameEventHandler \/ h = GameOverEventHandler ->
   ev_keydown self KeySym.ESCAPE s = (s, Raised SystemExit) /\
   handle_events self (KeyDown KeySym.ESCAPE) s = (s, Raised SystemExit)).
Proof.
  intros Hl.
  assert (Hq : dispatch self Quit s = (s, Raised SystemExit)).
  { unfold dispatch, mbind, M_bind, bind.
    rewrite (get_object_lookup _ _ _ Hl). reflexivity. }
  split; [exact Hq |]. split.
  - unfold handle_events, mbind, M_bind, bind.
    rewrite (get_object_lookup _ _ _ Hl), Hq. reflexivity.
  - intros Hcls.
    assert (Hk : ev_keydown self KeySym.ESCAPE s = (s, Raised SystemExit)).
    { unfold ev_keydown, mbind, M_bind, bind.
      rewrite (get_object_lookup _ _ _ Hl).
      destruct Hcls as [-> | ->]; reflexivity. }
    split; [exact Hk |].
    unfold handle_events, dispatch, mbind, M_bind, bind.
    rewrite (get_object_lookup _ _ _ Hl).
    fold (@bind H) in Hk. rewrite Hk. reflexivity.
Qed.

(** C8. The default [ev_keydown] of a handler of class
    [AskUserEventHandler] or below: a press of one of the six modifier
    keys returns no action and leaves the state as it was; any other key
    runs [on_exit], which makes a [MainGameEventHandler] the active
    handler and returns no action.  The default is what [ev_keydown]
    resolves to on the base prompt, and on an inventory menu for the keys
    outside its letter range. *)
Theorem ask_user_default_keydown (self : nat) (h : Handler) (s : State)
    (sym : Z) :
  handlers (world s) !! self = Some h ->
  is_AskUser h = true ->
  (sym ∈ [KeySym.LSHIFT; KeySym.RSHIFT; KeySym.LCTRL;
          KeySym.RCTRL; KeySym.LALT; KeySym.RALT] ->
   AskUserEventHandler_ev_keydown self sym s = (s, Returned None)) /\
  (sym ∉ [KeySym.LSHIFT; KeySym.RSHIFT; KeySym.LCTRL;
          KeySym.RCTRL; KeySym.LALT; KeySym.RALT] ->
   AskUserEventHandler_ev_keydown self sym s = on_exit self s /\
   on_exit self s = (switched_to MainGameEventHandler s, Returned None) /\
   active_handler (world (switched_to MainGameEventHandler s))
     = Some MainGameEventHandler) /\
  (h = AskUserEventHandler \/ ~ (0 <= sym - KeySym.a <= 26) ->
   ev_keydown self sym s = AskUserEventHandler_ev_keydown self sym s).
Proof.
  intros Hl Hask.
  assert (Hmod : sym ∈ MODIFIER_KEYS <->
                 sym ∈ [KeySym.LSHIFT; KeySym.RSHIFT; KeySym.LCTRL;
                        KeySym.RCTRL; KeySym.LALT; KeySym.RALT]).
  { unfold MODIFIER_KEYS. rewrite !elem_of_union, !elem_of_singleton.
    rewrite !elem_of_cons, elem_of_nil. tauto. }
  split; [| split].
  - intros Hin. unfold AskUserEventHandler_ev_keydown.
    rewrite bool_decide_eq_true_2 by (apply Hmod, Hin). reflexivity.
  - intros Hnin. unfold AskUserEventHandler_ev_keydown.
    rewrite bool_decide_eq_false_2 by (rewrite Hmod; exact Hnin).
    split; [reflexivity |]. split.
    + exact (on_exit_switches _ _ _ Hl Hask).
    + apply active_switched_to.
  - intros Hcase. unfold ev_keydown, mbind, M_bind at 1, bind at 1.
    rewrite (get_object_lookup _ _ _ Hl).
    destruct Hcase as [-> | Hout]; [reflexivity |].
    assert (Hrange : (0 <=? sym - KeySym.a) && (sym - KeySym.a <=? 26) = false).
    { apply andb_false_iff. rewrite !Z.leb_gt. lia. }
    destruct h; try discriminate Hask; try reflexivity;
      unfold InventoryEventHandler_ev_keydown, mbind, M_bind, bind, gets;
      cbn zeta; rewrite Hrange; reflexivity.
Qed.

(** *** The main mode *)

(** C9. In [MainGameEventHandler], Home, End, Page-Up and Page-Down are
    movement keys: each returns a [BumpAction] for the player, with
    [(-1,-1)], [(-1,1)], [(1,-1)] and [(1,1)], and changes nothing. *)
Theorem main_game_diagonal_keys (self : nat) (s : State) :
  MainGameEventHandler_ev_keydown self KeySym.HOME s =
    (s, Returned (Some (BumpAction (player (world s)) (-1) (-1)))) /\
  MainGameEventHandler_ev_keydown self KeySym.END s =
    (s, Returned (Some (BumpAction (player (world s)) (-1) 1))) /\
  MainGameEventHandler_ev_keydown self KeySym.PAGEUP s =
    (s, Returned (Some (BumpAction (player (world s)) 1 (-1)))) /\
  MainGameEventHandler_ev_keydown self KeySym.PAGEDOWN s =
    (s, Returned (Some (BumpAction (player (world s)) 1 1))).
Proof. repeat split. Qed.

(** *** Inventory menus *)

(** C5. In an inventory menu, for a key whose offset from [a] is in
    [[0, 26]]: when the offset is at or beyond the number of items,
    ["Invalid entry."] is logged with [color.invalid], no action is
    returned and the handlers are untouched; when it is below,
    [on_item_selected] is called with the item at that offset.  The
    offset of [a] is [0] and that of [z] is [25]. *)
Theorem inventory_keydown_selects (self : nat) (h : Handler) (s : State)
    (sym : Z) :
  handlers (world s) !! self = Some h ->
  is_Inventory h = true ->
  0 <= sym - KeySym.a <= 26 ->
  let items := inventory_items (player (world s)) in
  let index := sym - KeySym.a in
  (Z.of_nat (length items) <= index ->
   exists s' : State,
     ev_keydown self sym s = (s', Returned None) /\
     messages (world s') =
       add_message "Invalid entry." color_invalid (messages (world s)) /\
     calls s' = calls s ++ [CallAddMessage "Invalid entry." color_invalid] /\
     event_handler (world s') = event_handler (world s) /\
     handlers (world s') = handlers (world s)) /\
  (index < Z.of_nat (length items) ->
   exists item : Item,
     items !! Z.to_nat index = Some item /\
     ev_keydown self sym s = on_item_selected self item s) /\
  KeySym.a - KeySym.a = 0 /\ KeySym.b - KeySym.a = 1 /\
  KeySym.z - KeySym.a = 25.
Proof.
  intros Hl Hinv Hrange items index.
  assert (Hguard : (0 <=? sym - KeySym.a) && (sym - KeySym.a <=? 26) = true).
  { apply andb_true_iff. rewrite !Z.leb_le. lia. }
  assert (Hkey : ev_keydown self sym s =
                 match py_index items index with
                 | None =>
                     bind (engine_add_message "Invalid entry." color_invalid)
                          (fun _ => ret None) s
                 | Some item => on_item_selected self item s
                 end).
  { unfold ev_keydown, mbind, M_bind at 1, bind at 1.
    rewrite (get_object_lookup _ _ _ Hl).
    destruct h; try discriminate Hinv;
      unfold InventoryEventHandler_ev_keydown, mbind, M_bind at 1,
        bind at 1, gets; cbn zeta; rewrite Hguard;
      fold items; fold index; destruct (py_index items index); reflexivity. }
  assert (Hidx : py_index items index = items !! Z.to_nat index).
  { unfold py_index.
    destruct (Z.leb_spec 0 index) as [_ | Hneg]; [reflexivity |].
    unfold index in Hneg. lia. }
  split; [| split; [| repeat split]].
  - intros Hbeyond. rewrite Hkey, Hidx.
    rewrite (lookup_ge_None_2 items (Z.to_nat index)) by lia.
    eexists. split; [reflexivity |]. cbn. repeat split.
  - intros Hbelow.
    destruct (lookup_lt_is_Some_2 items (Z.to_nat index)) as [item Hitem];
      [lia |].
    exists item. split; [exact Hitem |].
    rewrite Hkey, Hidx, Hitem. reflexivity.
Qed.

(** *** The history viewer *)

Lemma set_cursor_viewer (self : nat) (n c c' : Z) (s : State) :
  handlers (world s) !! self = Some (HistoryViewer n c) ->
  set_cursor self c' s = (with_cursor self n c' s, Returned tt).
Proof.
  intros Hl. unfold set_cursor, mbind, M_bind, bind.
  rewrite (get_object_lookup _ _ _ Hl). reflexivity.
Qed.

Lemma with_cursor_lookup (self : nat) (n c c' : Z) (s : State) :
  handlers (world s) !! self = Some (HistoryViewer n c) ->
  handlers (world (with_cursor self n c' s)) !! self
    = Some (HistoryViewer n c').
Proof.
  intros Hl. cbn. apply list_lookup_insert_eq.
  exact (lookup_lt_Some _ _ _ Hl).
Qed.

(** A navigation key moves the cursor as [moved_cursor] says. *)
Lemma HistoryViewer_ev_keydown_cursor_key (self : nat) (n c : Z) (s : State)
    (sym adjust : Z) :
  handlers (world s) !! self = Some (HistoryViewer n c) ->
  CURSOR_Y_KEYS !! sym = Some adjust ->
  HistoryViewer_ev_keydown self sym s =
    (with_cursor self n (moved_cursor n c adjust) s, Returned None).
Proof.
  intros Hl Hkey. unfold HistoryViewer_ev_keydown. rewrite Hkey.
  unfold get_cursor, get_log_length, mbind, M_bind, bind.
  rewrite (get_object_lookup _ _ _ Hl). cbn.
  rewrite (get_object_lookup _ _ _ Hl). cbn.
  unfold moved_cursor.
  destruct ((adjust <? 0) && (c =? 0));
    [| destruct ((adjust >? 0) && (c =? n - 1))];
    rewrite (set_cursor_viewer _ _ _ _ _ Hl); reflexivity.
Qed.

(** Every key: the viewer's cursor is set, or the main mode comes back. *)
Lemma HistoryViewer_ev_keydown_cases (self : nat) (n c : Z) (s : State)
    (sym : Z) :
  handlers (world s) !! self = Some (HistoryViewer n c) ->
  (exists c' : Z,
     (1 <= n -> 0 <= c <= n - 1 -> 0 <= c' <= n - 1) /\
     HistoryViewer_ev_keydown self sym s
       = (with_cursor self n c' s, Returned None)) \/
  HistoryViewer_ev_keydown self sym s
    = (switched_to MainGameEventHandler s, Returned None).
Proof.
  intros Hl.
  destruct (CURSOR_Y_KEYS !! sym) as [adjust |] eqn:Hkey.
  - left. exists (moved_cursor n c adjust). split.
    + unfold moved_cursor.
      destruct ((adjust <? 0) && (c =? 0)); [lia |].
      destruct ((adjust >? 0) && (c =? n - 1)); lia.
    + exact (HistoryViewer_ev_keydown_cursor_key _ _ _ _ _ _ Hl Hkey).
  - unfold HistoryViewer_ev_keydown. rewrite Hkey.
    destruct (bool_decide (sym = KeySym.HOME)) eqn:Hhome;
      [| destruct (bool_decide (sym = KeySym.END)) eqn:Hend].
    + left. exists 0. split; [lia |].
      unfold mbind, M_bind, bind.
      rewrite (set_cursor_viewer _ _ _ _ _ Hl). reflexivity.
    + left. exists (n - 1). split; [lia |].
      unfold get_log_length, mbind, M_bind, bind.
      rewrite (get_object_lookup _ _ _ Hl). cbn.
      rewrite (set_cursor_viewer _ _ _ _ _ Hl). reflexivity.
    + right. reflexivity.
Qed.

Lemma new_HistoryViewer_enters (s : State) :
  new_HistoryViewer s
    = (entered_viewer s, Returned (length (handlers (world s)))).
Proof. reflexivity. Qed.

Lemma entered_viewer_lookup (s : State) :
  handlers (world (entered_viewer s)) !! length (handlers (world s))
    = Some (HistoryViewer (Z.of_nat (length (messages (world s))))
                          (Z.of_nat (length (messages (world s))) - 1)).
Proof. cbn. apply list_lookup_middle. reflexivity. Qed.

(** C4. For the four navigation keys (up [-1], down [+1], page-up [-10],
    page-down [+10]): a negative delta with the cursor at [0] sets it to
    [log_length - 1]; a positive delta with the cursor at
    [log_length - 1] sets it to [0]; in every other case the delta is
    added and the sum clamped into [[0, log_length - 1]]. *)
Theorem history_viewer_navigation (self : nat) (n c : Z) (s : State)
    (sym delta : Z) :
  handlers (world s) !! self = Some (HistoryViewer n c) ->
  (sym, delta) ∈ [(KeySym.UP, -1); (KeySym.DOWN, 1);
                  (KeySym.PAGEUP, -10); (KeySym.PAGEDOWN, 10)] ->
  exists c' : Z,
    HistoryViewer_ev_keydown self sym s
      = (with_cursor self n c' s, Returned None) /\
    cursor_of self (with_cursor self n c' s) = Some c' /\
    (delta < 0 -> c = 0 -> c' = n - 1) /\
    (delta > 0 -> c = n - 1 -> c' = 0) /\
    (~ (delta < 0 /\ c = 0) -> ~ (delta > 0 /\ c = n - 1) ->
     c' = Z.max 0 (Z.min (c + delta) (n - 1)) /\
     (1 <= n -> 0 <= c' <= n - 1)).
Proof.
  intros Hl Hkey.
  assert (Hmap : CURSOR_Y_KEYS !! sym = Some delta).
  { rewrite !elem_of_cons, elem_of_nil in Hkey.
    destruct Hkey as [[= -> ->] | [[= -> ->] | [[= -> ->] | [[= -> ->] | []]]]];
      reflexivity. }
  exists (moved_cursor n c delta). split; [| split].
  - exact (HistoryViewer_ev_keydown_cursor_key _ _ _ _ _ _ Hl Hmap).
  - unfold cursor_of.
    rewrite (with_cursor_lookup _ _ _ _ _ Hl). reflexivity.
  - unfold moved_cursor. split; [| split].
    + intros Hneg ->.
      rewrite (proj2 (Z.ltb_lt delta 0) Hneg). reflexivity.
    + intros Hpos ->.
      destruct ((delta <? 0) && (n - 1 =? 0)) eqn:Hup.
      * apply andb_true_iff in Hup as [Hup _].
        apply Z.ltb_lt in Hup. lia.
      * rewrite (proj2 (Z.gtb_gt delta 0) Hpos), Z.eqb_refl. reflexivity.
    + intros Hup Hdown.
      destruct ((delta <? 0) && (c =? 0)) eqn:E1.
      * apply andb_true_iff in E1 as [E1 E2].
        apply Z.ltb_lt in E1. apply Z.eqb_eq in E2. tauto.
      * destruct ((delta >? 0) && (c =? n - 1)) eqn:E2;
          [| split; [reflexivity | lia]].
        apply andb_true_iff in E2 as [E2 E3].
        apply Z.gtb_gt in E2. apply Z.eqb_eq in E3. tauto.
Qed.

(** C10. A viewer entered on an empty log has [log_length = 0] and
    [cursor = -1], and each of the four navigation keys then sets the
    cursor to [0]. *)
Theorem history_viewer_empty_log (s : State) (sym : Z) :
  messages (world s) = [] ->
  sym ∈ [KeySym.UP; KeySym.DOWN; KeySym.PAGEUP; KeySym.PAGEDOWN] ->
  exists (self : nat) (s1 s2 : State),
    new_HistoryViewer s = (s1, Returned self) /\
    handlers (world s1) !! self = Some (HistoryViewer 0 (-1)) /\
    HistoryViewer_ev_keydown self sym s1 = (s2, Returned None) /\
    cursor_of self s2 = Some 0.
Proof.
  intros Hlog Hkey.
  exists (length (handlers (world s))), (entered_viewer s).
  assert (Hl : handlers (world (entered_viewer s))
                 !! length (handlers (world s))
               = Some (HistoryViewer 0 (-1))).
  { rewrite entered_viewer_lookup, Hlog. reflexivity. }
  assert (Hnav : forall delta : Z,
            CURSOR_Y_KEYS !! sym = Some delta ->
            moved_cursor 0 (-1) delta = 0 ->
            exists s2 : State,
              new_HistoryViewer s
                = (entered_viewer s, Returned (length (handlers (world s)))) /\
              handlers (world (entered_viewer s))
                  !! length (handlers (world s))
                = Some (HistoryViewer 0 (-1)) /\
              HistoryViewer_ev_keydown (length (handlers (world s))) sym
                  (entered_viewer s)
                = (s2, Returned None) /\
              cursor_of (length (handlers (world s))) s2 = Some 0).
  { intros delta Hmap Hmoved. eexists.
    split; [apply new_HistoryViewer_enters |]. split; [exact Hl |].
    split; [exact (HistoryViewer_ev_keydown_cursor_key _ _ _ _ _ _ Hl Hmap) |].
    unfold cursor_of.
    rewrite (with_cursor_lookup _ _ _ _ _ Hl), Hmoved. reflexivity. }
  rewrite !elem_of_cons, elem_of_nil in Hkey.
  destruct Hkey as [-> | [-> | [-> | [-> | []]]]].
  - apply (Hnav (-1)); reflexivity.
  - apply (Hnav 1); reflexivity.
  - apply (Hnav (-10)); reflexivity.
  - apply (Hnav 10); reflexivity.
Qed.

(** One step of viewer activity keeps the snapshot and the range. *)
Lemma viewer_op_preserves (self : nat) (n : Z) (op : ViewerOp) (s : State) :
  1 <= n ->
  cursor_in_range self n (world s) ->
  exists s' : State,
    viewer_op self op s = (s', Returned tt) /\
    cursor_in_range self n (world s').
Proof.
  intros Hn (c & Hl & Hc). destruct op as [sym | text fg]; cbn.
  - unfold bind.
    destruct (HistoryViewer_ev_keydown_cases self n c s sym Hl)
      as [(c' & Hc' & ->) | ->].
    + eexists. split; [reflexivity |].
      exists c'. split; [exact (with_cursor_lookup _ _ _ _ _ Hl) | auto].
    + eexists. split; [reflexivity |].
      exists c. split; [| exact Hc].
      cbn. rewrite lookup_app_l by exact (lookup_lt_Some _ _ _ Hl).
      exact Hl.
  - eexists. split; [reflexivity |]. exists c. split; [exact Hl | exact Hc].
Qed.

Lemma viewer_ops_preserve (self : nat) (n : Z) (ops : list ViewerOp) :
  1 <= n ->
  forall s : State,
    cursor_in_range self n (world s) ->
    exists s' : State,
      viewer_ops self ops s = (s', Returned tt) /\
      cursor_in_range self n (world s').
Proof.
  intros Hn. induction ops as [| op ops IH]; intros s Hin; cbn.
  - exists s. split; [reflexivity | exact Hin].
  - destruct (viewer_op_preserves self n op s Hn Hin) as (s1 & Hop & Hin1).
    destruct (IH s1 Hin1) as (s2 & Hops & Hin2).
    exists s2. split; [| exact Hin2].
    unfold bind. rewrite Hop. exact Hops.
Qed.

(** C6, amended.  On entry the viewer's [log_length] is the length of the
    message log at that moment and its cursor is [log_length - 1].  When
    the log is not empty at entry, the cursor is in
    [[0, log_length - 1]] on entry and after any sequence of key presses
    and of messages added to the log, and [log_length] stays the
    snapshot. *)
Theorem history_cursor_in_range (s : State) (ops : list ViewerOp) :
  let n := Z.of_nat (length (messages (world s))) in
  let self := length (handlers (world s)) in
  new_HistoryViewer s = (entered_viewer s, Returned self) /\
  handlers (world (entered_viewer s)) !! self
    = Some (HistoryViewer n (n - 1)) /\
  (1 <= n ->
   cursor_in_range self n (world (entered_viewer s)) /\
   exists s' : State,
     viewer_ops self ops (entered_viewer s) = (s', Returned tt) /\
     cursor_in_range self n (world s')).
Proof.
  intros n self.
  split; [apply new_HistoryViewer_enters |].
  split; [apply entered_viewer_lookup |].
  intros Hn.
  assert (Hentry : cursor_in_range self n (world (entered_viewer s))).
  { exists (n - 1). split; [apply entered_viewer_lookup | lia]. }
  split; [exact Hentry |].
  exact (viewer_ops_preserve self n ops Hn _ Hentry).
Qed.

End Properties.

(** ** Further properties of the handlers *)

Section MoreProperties.
Context `{Collaborators}.

(** *** Method resolution, once the class of [self] is known *)

Lemma ev_keydown_resolves (self : nat) (h : Handler) (sym : Z) (s : State) :
  handlers (world s) !! self = Some h ->
  ev_keydown self sym s =
    match h with
    | EventHandler => (s, Returned None)
    | AskUserEventHandler => AskUserEventHandler_ev_keydown self sym s
    | InventoryEventHandler | InventoryActivateHandler
    | InventoryDropHandler => InventoryEventHandler_ev_keydown self sym s
    | MainGameEventHandler => MainGameEventHandler_ev_keydown self sym s
    | GameOverEventHandler => GameOverEventHandler_ev_keydown self sym s
    | HistoryViewer _ _ => HistoryViewer_ev_keydown self sym s
    end.
Proof.
  intros Hl. unfold ev_keydown, mbind, M_bind, bind.
  rewrite (get_object_lookup _ _ _ Hl). destruct h; reflexivity.
Qed.

Lemma dispatch_mouse_motion (self : nat) (h : Handler) (s : State)
    (tile_x tile_y : Z) :
  handlers (world s) !! self = Some h ->
  dispatch self (MouseMotion tile_x tile_y) s
    = (if in_bounds (game_map (world s)) tile_x tile_y
       then mkState (set_mouse_location (tile_x, tile_y) (world s)) (calls s)
       else s,
       Returned None).
Proof.
  intros Hl. unfold dispatch, mbind, M_bind, bind.
  rewrite (get_object_lookup _ _ _ Hl).
  unfold EventHandler_ev_mousemotion, gets, modify,
    mbind, M_bind, bind, mret, M_ret, ret. cbn.
  destruct (in_bounds (game_map (world s)) tile_x tile_y); reflexivity.
Qed.

(** An event whose method returns no action: [handle_events] stops
    there. *)
Lemma handle_events_no_action (self : nat) (h : Handler) (event : Event)
    (s s1 : State) :
  handlers (world s) !! self = Some h ->
  dispatch self event s = (s1, Returned None) ->
  handle_events self event s = (s1, Returned tt).
Proof.
  intros Hl Hd. unfold handle_events, mbind, M_bind, bind.
  rewrite (get_object_lookup _ _ _ Hl).
  fold (@bind H) in *. rewrite Hd.
  destruct (is_AskUser h); reflexivity.
Qed.

Lemma handle_events_raises (self : nat) (h : Handler) (event : Event)
    (s s1 : State) (e : Exn) :
  handlers (world s) !! self = Some h ->
  dispatch self event s = (s1, Raised e) ->
  handle_events self event s = (s1, Raised e).
Proof.
  intros Hl Hd. unfold handle_events, mbind, M_bind, bind.
  rewrite (get_object_lookup _ _ _ Hl).
  fold (@bind H) in *. rewrite Hd. reflexivity.
Qed.

(** *** Failures of [perform] that are not caught *)

(** X1. An exception of [perform] other than [Impossible] goes through
    [handle_action] as it is, in the base handler and in every subclass:
    nothing is logged, no enemy turn and no field-of-view update is
    issued, and a prompt does not switch the handler. *)
Theorem handle_action_propagates (self : nat) (h : Handler) (act : Action)
    (s : State) (w1 : World) (e : Exn) :
  handlers (world s) !! self = Some h ->
  perform act (world s) = (w1, Raised e) ->
  (forall args : list string, e <> Impossible args) ->
  EventHandler_handle_action self (Some act) s
    = (mkState w1 (calls s ++ [CallPerform act]), Raised e) /\
  handle_action self (Some act) s
    = (mkState w1 (calls s ++ [CallPerform act]), Raised e).
Proof.
  intros Hl Hp Hother.
  assert (Hbase : EventHandler_handle_action self (Some act) s
                  = (mkState w1 (calls s ++ [CallPerform act]), Raised e)).
  { unfold EventHandler_handle_action, try_except, call_perform, run,
      log_call, mbind, M_bind, bind, mret, M_ret, ret.
    cbn. rewrite Hp. cbn.
    destruct e as [| args | | | |]; try reflexivity.
    destruct (Hother args eq_refl). }
  split; [exact Hbase |].
  unfold handle_action, mbind, M_bind at 1, bind at 1.
  rewrite (get_object_lookup _ _ _ Hl).
  destruct (is_AskUser h); [| exact Hbase].
  unfold AskUserEventHandler_handle_action, mbind, M_bind at 1, bind at 1.
  rewrite Hbase. reflexivity.
Qed.

(** X2. [Impossible] raised without arguments: [exc.args[0]] raises
    [IndexError] inside the handler, so [handle_action] raises it, with
    nothing logged and no enemy turn. *)
Theorem handle_action_impossible_without_reason (self : nat) (act : Action)
    (s : State) (w1 : World) :
  perform act (world s) = (w1, Raised (Impossible [])) ->
  EventHandler_handle_action self (Some act) s
    = (mkState w1 (calls s ++ [CallPerform act]), Raised IndexError).
Proof.
  intros Hp.
  unfold EventHandler_handle_action, try_except, call_perform, run,
    log_call, mbind, M_bind, bind, mret, M_ret, ret.
  cbn. rewrite Hp. reflexivity.
Qed.

(** *** The main mode, every key *)

(** Membership in the dict literal, from a lookup. *)
Lemma MOVE_KEYS_entries (key dx dy : Z) :
  MOVE_KEYS !! key = Some (dx, dy) ->
  (key, (dx, dy)) ∈
    [ (KeySym.UP, (0, -1)); (KeySym.DOWN, (0, 1));
      (KeySym.LEFT, (-1, 0)); (KeySym.RIGHT, (1, 0));
      (KeySym.HOME, (-1, -1)); (KeySym.END, (-1, 1));
      (KeySym.PAGEUP, (1, -1)); (KeySym.PAGEDOWN, (1, 1));
      (KeySym.KP_1, (-1, 1)); (KeySym.KP_2, (0, 1));
      (KeySym.KP_3, (1, 1)); (KeySym.KP_4, (-1, 0));
      (KeySym.KP_6, (1, 0)); (KeySym.KP_7, (-1, -1));
      (KeySym.KP_8, (0, -1)); (KeySym.KP_9, (1, -1));
      (KeySym.h, (-1, 0)); (KeySym.j, (0, 1));
      (KeySym.k, (0, -1)); (KeySym.l, (1, 0));
      (KeySym.y, (-1, -1)); (KeySym.u, (1, -1));
      (KeySym.b, (-1, 1)); (KeySym.n, (1, 1)) ].
Proof. intros Hl. exact (elem_of_list_to_map_2 _ _ _ Hl). Qed.

(** X3. Every key of [MOVE_KEYS] makes [MainGameEventHandler.ev_keydown]
    return a [BumpAction] for the player with the key's delta and leave
    the state as it was, and the delta is one step to one of the eight
    neighbours: both components are in [[-1, 1]] and not both are [0]. *)
Theorem main_game_move_keys (self : nat) (s : State) (key dx dy : Z) :
  MOVE_KEYS !! key = Some (dx, dy) ->
  MainGameEventHandler_ev_keydown self key s
    = (s, Returned (Some (BumpAction (player (world s)) dx dy))) /\
  Z.max (Z.abs dx) (Z.abs dy) = 1.
Proof.
  intros Hl. split.
  - unfold MainGameEventHandler_ev_keydown, mbind, M_bind, bind, gets.
    cbn zeta. rewrite Hl. reflexivity.
  - apply MOVE_KEYS_entries in Hl.
    repeat (apply elem_of_cons in Hl as [[= -> -> ->] | Hl]; [reflexivity |]).
    inversion Hl.
Qed.

(** Membership in a list literal, and "the keys of this delta are all in
    this list", by going through the entries of the table. *)
Ltac member :=
  repeat first [apply list_elem_of_here | apply list_elem_of_further].

Ltac only_these :=
  let key := fresh "key" in
  let Hl := fresh "Hl" in
  let Heq := fresh "Heq" in
  intros key Hl; apply MOVE_KEYS_entries in Hl;
  repeat (apply elem_of_cons in Hl as [Heq | Hl];
          [try discriminate Heq; injection Heq as ->; member |]);
  inversion Hl.

(** X4. Each of the eight directions has exactly three keys in
    [MOVE_KEYS], and no other: one of the arrow and navigation keys, one
    of the numpad keys and one of the vi keys.  The numpad key is the
    digit that lies in that direction from [5] on the keypad, rows
    counted downwards: [KP_1 + 3 (1 - dy) + dx + 1]. *)
Theorem move_keys_cover_directions (dx dy : Z) :
  Z.max (Z.abs dx) (Z.abs dy) = 1 ->
  exists nav numpad vi : Z,
    nav ∈ [KeySym.UP; KeySym.DOWN; KeySym.LEFT; KeySym.RIGHT;
           KeySym.HOME; KeySym.END; KeySym.PAGEUP; KeySym.PAGEDOWN] /\
    numpad ∈ [KeySym.KP_1; KeySym.KP_2; KeySym.KP_3; KeySym.KP_4;
              KeySym.KP_6; KeySym.KP_7; KeySym.KP_8; KeySym.KP_9] /\
    vi ∈ [KeySym.h; KeySym.j; KeySym.k; KeySym.l;
          KeySym.y; KeySym.u; KeySym.b; KeySym.n] /\
    numpad = KeySym.KP_1 + 3 * (1 - dy) + dx + 1 /\
    (forall key : Z,
       MOVE_KEYS !! key = Some (dx, dy) <-> key ∈ [nav; numpad; vi]) /\
    size (filter (fun entry : Z * (Z * Z) => entry.2 = (dx, dy)) MOVE_KEYS)
      = 3%nat.
Proof.
  intros Hstep.
  assert (Hdx : dx = -1 \/ dx = 0 \/ dx = 1) by lia.
  assert (Hdy : dy = -1 \/ dy = 0 \/ dy = 1) by lia.
  assert (Hfamily : forall nav numpad vi : Z,
            MOVE_KEYS !! nav = Some (dx, dy) ->
            MOVE_KEYS !! numpad = Some (dx, dy) ->
            MOVE_KEYS !! vi = Some (dx, dy) ->
            (forall key : Z,
               MOVE_KEYS !! key = Some (dx, dy) -> key ∈ [nav; numpad; vi]) ->
            forall key : Z,
              MOVE_KEYS !! key = Some (dx, dy) <-> key ∈ [nav; numpad; vi]).
  { intros nav numpad vi Hnav Hnumpad Hvi Honly key. split; [apply Honly |].
    rewrite !elem_of_cons, elem_of_nil.
    intros [-> | [-> | [-> | []]]]; assumption. }
  destruct Hdx as [-> | [-> | ->]], Hdy as [-> | [-> | ->]];
    try (cbn in Hstep; lia).
  - exists KeySym.HOME, KeySym.KP_7, KeySym.y.
    repeat split; try member; try reflexivity.
    all: apply Hfamily; try reflexivity; only_these.
  - exists KeySym.LEFT, KeySym.KP_4, KeySym.h.
    repeat split; try member; try reflexivity.
    all: apply Hfamily; try reflexivity; only_these.
  - exists KeySym.END, KeySym.KP_1, KeySym.b.
    repeat split; try member; try reflexivity.
    all: apply Hfamily; try reflexivity; only_these.
  - exists KeySym.UP, KeySym.KP_8, KeySym.k.
    repeat split; try member; try reflexivity.
    all: apply Hfamily; try reflexivity; only_these.
  - exists KeySym.DOWN, KeySym.KP_2, KeySym.j.
    repeat split; try member; try reflexivity.
    all: apply Hfamily; try reflexivity; only_these.
  - exists KeySym.PAGEUP, KeySym.KP_9, KeySym.u.
    repeat split; try member; try reflexivity.
    all: apply Hfamily; try reflexivity; only_these.
  - exists KeySym.RIGHT, KeySym.KP_6, KeySym.l.
    repeat split; try member; try reflexivity.
    all: apply Hfamily; try reflexivity; only_these.
  - exists KeySym.PAGEDOWN, KeySym.KP_3, KeySym.n.
    repeat split; try member; try reflexivity.
    all: apply Hfamily; try reflexivity; only_these.
Qed.

(** X5. No command key of the main mode is shadowed by a movement key:
    each of the three keys of [WAIT_KEYS] returns a [WaitAction] for the
    player, [g] returns a [PickupAction], both with the state unchanged,
    and escape raises [SystemExit]. *)
Theorem main_game_command_keys (self : nat) (s : State) (key : Z) :
  key ∈ WAIT_KEYS ->
  MainGameEventHandler_ev_keydown self key s
    = (s, Returned (Some (WaitAction (player (world s))))) /\
  MainGameEventHandler_ev_keydown self KeySym.g s
    = (s, Returned (Some (PickupAction (player (world s))))) /\
  MainGameEventHandler_ev_keydown self KeySym.ESCAPE s
    = (s, Raised SystemExit).
Proof.
  intros Hwait. split; [| split; reflexivity].
  unfold MainGameEventHandler_ev_keydown, mbind, M_bind, bind, gets.
  cbn zeta. rewrite (bool_decide_eq_true_2 _ Hwait).
  unfold WAIT_KEYS in Hwait.
  rewrite !elem_of_union, !elem_of_singleton in Hwait.
  destruct Hwait as [[-> | ->] | ->]; reflexivity.
Qed.

(** X6. Whatever the key, [MainGameEventHandler.ev_keydown] leaves the
    message log, the player, the map, the mouse location and the call
    trace alone and only adds handler objects; it returns an action only
    with the state wholly unchanged, and the one exception it raises is
    [SystemExit], on escape. *)
Theorem main_game_keydown_frame (self : nat) (key : Z) (s s' : State)
    (r : Outcome (option Action)) :
  MainGameEventHandler_ev_keydown self key s = (s', r) ->
  calls s' = calls s /\
  messages (world s') = messages (world s) /\
  player (world s') = player (world s) /\
  game_map (world s') = game_map (world s) /\
  mouse_location (world s') = mouse_location (world s) /\
  (exists new : list Handler,
     handlers (world s') = handlers (world s) ++ new) /\
  (forall a : Action, r = Returned (Some a) -> s' = s) /\
  (forall e : Exn,
     r = Raised e -> e = SystemExit /\ key = KeySym.ESCAPE /\ s' = s).
Proof.
  unfold MainGameEventHandler_ev_keydown, new_HistoryViewer, new_object,
    set_event_handler, modify, gets, raise,
    mbind, M_bind, bind, mret, M_ret, ret.
  cbn zeta.
  destruct (MOVE_KEYS !! key) as [[dx dy] |];
    repeat case_bool_decide; cbn; intros [= <- <-]; cbn;
    repeat split;
    try (intros; congruence);
    try (exists []; symmetry; apply app_nil_r);
    try (eexists; reflexivity).
Qed.

(** X7. In the main mode the keys [v], [i] and [d] cost no turn:
    [handle_events] issues no collaborator call and returns with a new
    history viewer, use menu or drop menu as the active handler; the
    viewer is entered on the current length of the log. *)
Theorem main_game_mode_keys (self : nat) (s : State) :
  handlers (world s) !! self = Some MainGameEventHandler ->
  handle_events self (KeyDown KeySym.v) s
    = (switched_to
         (HistoryViewer (Z.of_nat (length (messages (world s))))
                        (Z.of_nat (length (messages (world s))) - 1)) s,
       Returned tt) /\
  handle_events self (KeyDown KeySym.i) s
    = (switched_to InventoryActivateHandler s, Returned tt) /\
  handle_events self (KeyDown KeySym.d) s
    = (switched_to InventoryDropHandler s, Returned tt).
Proof.
  intros Hl.
  repeat split;
    apply (handle_events_no_action _ _ _ _ _ Hl);
    unfold dispatch; rewrite (ev_keydown_resolves _ _ _ _ Hl);
    reflexivity.
Qed.

(** X8. A key the main mode has no use for (not in [MOVE_KEYS], not in
    [WAIT_KEYS], none of escape, [v], [g], [i], [d]) is ignored:
    [handle_events] returns with the state as it was. *)
Theorem main_game_ignores_other_keys (self : nat) (s : State) (key : Z) :
  handlers (world s) !! self = Some MainGameEventHandler ->
  MOVE_KEYS !! key = None ->
  key ∉ WAIT_KEYS ->
  key ∉ [KeySym.ESCAPE; KeySym.v; KeySym.g; KeySym.i; KeySym.d] ->
  handle_events self (KeyDown key) s = (s, Returned tt).
Proof.
  intros Hl Hmove Hwait Hcmd.
  rewrite !not_elem_of_cons in Hcmd.
  destruct Hcmd as (Hesc & Hv & Hg & Hi & Hd & _).
  apply (handle_events_no_action _ _ _ _ _ Hl).
  unfold dispatch. rewrite (ev_keydown_resolves _ _ _ _ Hl).
  unfold MainGameEventHandler_ev_keydown, mbind, M_bind, bind, gets.
  cbn zeta. rewrite Hmove.
  rewrite (bool_decide_eq_false_2 _ Hwait), (bool_decide_eq_false_2 _ Hesc),
    (bool_decide_eq_false_2 _ Hv), (bool_decide_eq_false_2 _ Hg),
    (bool_decide_eq_false_2 _ Hi), (bool_decide_eq_false_2 _ Hd).
  reflexivity.
Qed.

(** *** Game over *)

(** X9. When the game is over no event gets anything done: whatever the
    event, [handle_events] leaves the handlers, the active handler, the
    log, the player, the map and the call trace as they were; it returns,
    or raises [SystemExit] on a quit event or the escape key. *)
Theorem game_over_lockout (self : nat) (s s' : State) (event : Event)
    (r : Outcome unit) :
  handlers (world s) !! self = Some GameOverEventHandler ->
  handle_events self event s = (s', r) ->
  handlers (world s') = handlers (world s) /\
  event_handler (world s') = event_handler (world s) /\
  messages (world s') = messages (world s) /\
  player (world s') = player (world s) /\
  game_map (world s') = game_map (world s) /\
  calls s' = calls s /\
  (r = Returned tt \/
   r = Raised SystemExit /\
   (event = Quit \/ event = KeyDown KeySym.ESCAPE)).
Proof.
  intros Hl Hev.
  assert (Hquiet : forall s1 : State,
            dispatch self event s = (s1, Returned None) ->
            s' = s1 /\ r = Returned tt).
  { intros s1 Hd.
    rewrite (handle_events_no_action _ _ _ _ _ Hl Hd) in Hev.
    injection Hev as <- <-. split; reflexivity. }
  assert (Hexit : dispatch self event s = (s, Raised SystemExit) ->
                  s' = s /\ r = Raised SystemExit).
  { intros Hd.
    rewrite (handle_events_raises _ _ _ _ _ _ Hl Hd) in Hev.
    injection Hev as <- <-. split; reflexivity. }
  destruct event as [sym | x y | | |].
  - destruct (decide (sym = KeySym.ESCAPE)) as [-> | Hesc].
    + destruct Hexit as [-> ->];
        [unfold dispatch; rewrite (ev_keydown_resolves _ _ _ _ Hl);
         reflexivity |].
      repeat split. right. split; [reflexivity | right; reflexivity].
    + destruct (Hquiet s) as [-> ->].
      { unfold dispatch. rewrite (ev_keydown_resolves _ _ _ _ Hl).
        unfold GameOverEventHandler_ev_keydown.
        rewrite (bool_decide_eq_false_2 _ Hesc). reflexivity. }
      repeat split. left. reflexivity.
  - destruct (Hquiet
                (if in_bounds (game_map (world s)) x y
                 then mkState (set_mouse_location (x, y) (world s)) (calls s)
                 else s)) as [-> ->].
    { exact (dispatch_mouse_motion _ _ _ _ _ Hl). }
    destruct (in_bounds (game_map (world s)) x y);
      repeat split; left; reflexivity.
  - destruct (Hquiet s) as [-> ->].
    { unfold dispatch, ev_mousebuttondown, mbind, M_bind, bind.
      rewrite (get_object_lookup _ _ _ Hl). reflexivity. }
    repeat split. left. reflexivity.
  - destruct Hexit as [-> ->].
    { unfold dispatch, mbind, M_bind, bind.
      rewrite (get_object_lookup _ _ _ Hl). reflexivity. }
    repeat split. right. split; [reflexivity | left; reflexivity].
  - destruct (Hquiet s) as [-> ->].
    { unfold dispatch, mbind, M_bind, bind.
      rewrite (get_object_lookup _ _ _ Hl). reflexivity. }
    repeat split. left. reflexivity.
Qed.

(** *** The mouse *)

(** X10. A mouse motion, in any handler: inside the map the tile is
    recorded as the mouse location, outside it nothing changes; either
    way no turn is taken and the handler stays. *)
Theorem mouse_motion_records_location (self : nat) (h : Handler) (s : State)
    (tile_x tile_y : Z) :
  handlers (world s) !! self = Some h ->
  handle_events self (MouseMotion tile_x tile_y) s
    = (if in_bounds (game_map (world s)) tile_x tile_y
       then mkState (set_mouse_location (tile_x, tile_y) (world s)) (calls s)
       else s,
       Returned tt).
Proof.
  intros Hl.
  apply (handle_events_no_action _ _ _ _ _ Hl).
  exact (dispatch_mouse_motion _ _ _ _ _ Hl).
Qed.

(** X11. A mouse click closes a prompt of any class, with no turn taken,
    and does nothing in the other handlers. *)
Theorem mouse_click_closes_prompts (self : nat) (h : Handler) (s : State) :
  handlers (world s) !! self = Some h ->
  handle_events self MouseButtonDown s
    = (if is_AskUser h then switched_to MainGameEventHandler s else s,
       Returned tt).
Proof.
  intros Hl.
  apply (handle_events_no_action _ _ _ _ _ Hl).
  unfold dispatch, ev_mousebuttondown, mbind, M_bind, bind.
  rewrite (get_object_lookup _ _ _ Hl).
  destruct (is_AskUser h) eqn:Hask; [| reflexivity].
  exact (on_exit_switches _ _ _ Hl Hask).
Qed.

(** *** The history viewer, the other keys *)

Lemma get_log_length_viewer (self : nat) (n c : Z) (s : State) :
  handlers (world s) !! self = Some (HistoryViewer n c) ->
  get_log_length self s = (s, Returned n).
Proof.
  intros Hl. unfold get_log_length, mbind, M_bind, bind.
  rewrite (get_object_lookup _ _ _ Hl). reflexivity.
Qed.

(** X12. In the history viewer Home sets the cursor to [0] and End sets it
    to [log_length - 1], wherever the cursor was; any key other than
    these two and the four navigation keys gives the main mode back and
    leaves the viewer object as it was.  None of them takes a turn. *)
Theorem history_viewer_home_end_exit (self : nat) (n c : Z) (s : State)
    (sym : Z) :
  handlers (world s) !! self = Some (HistoryViewer n c) ->
  handle_events self (KeyDown KeySym.HOME) s
    = (with_cursor self n 0 s, Returned tt) /\
  handle_events self (KeyDown KeySym.END) s
    = (with_cursor self n (n - 1) s, Returned tt) /\
  (sym ∉ [KeySym.UP; KeySym.DOWN; KeySym.PAGEUP; KeySym.PAGEDOWN;
          KeySym.HOME; KeySym.END] ->
   handle_events self (KeyDown sym) s
     = (switched_to MainGameEventHandler s, Returned tt) /\
   handlers (world (switched_to MainGameEventHandler s)) !! self
     = Some (HistoryViewer n c)).
Proof.
  intros Hl. split; [| split].
  - apply (handle_events_no_action _ _ _ _ _ Hl).
    unfold dispatch. rewrite (ev_keydown_resolves _ _ _ _ Hl).
    unfold HistoryViewer_ev_keydown.
    replace (CURSOR_Y_KEYS !! KeySym.HOME) with (@None Z) by reflexivity.
    rewrite (bool_decide_eq_true_2 (KeySym.HOME = KeySym.HOME) eq_refl).
    unfold mbind, M_bind, bind.
    rewrite (set_cursor_viewer _ _ _ _ _ Hl). reflexivity.
  - apply (handle_events_no_action _ _ _ _ _ Hl).
    unfold dispatch. rewrite (ev_keydown_resolves _ _ _ _ Hl).
    unfold HistoryViewer_ev_keydown.
    replace (CURSOR_Y_KEYS !! KeySym.END) with (@None Z) by reflexivity.
    rewrite (bool_decide_eq_false_2 (KeySym.END = KeySym.HOME))
      by discriminate.
    rewrite (bool_decide_eq_true_2 (KeySym.END = KeySym.END) eq_refl).
    unfold mbind, M_bind, bind.
    rewrite (get_log_length_viewer _ _ _ _ Hl).
    rewrite (set_cursor_viewer _ _ _ _ _ Hl). reflexivity.
  - intros Hother. rewrite !not_elem_of_cons in Hother.
    destruct Hother as (Hup & Hdown & Hpgup & Hpgdn & Hhome & Hend & _).
    split.
    + apply (handle_events_no_action _ _ _ _ _ Hl).
      unfold dispatch. rewrite (ev_keydown_resolves _ _ _ _ Hl).
      unfold HistoryViewer_ev_keydown.
      assert (Hnav : CURSOR_Y_KEYS !! sym = None).
      { unfold CURSOR_Y_KEYS. apply not_elem_of_list_to_map_1. cbn.
        rewrite !not_elem_of_cons. repeat split; auto. apply not_elem_of_nil. }
      rewrite Hnav, (bool_decide_eq_false_2 _ Hhome),
        (bool_decide_eq_false_2 _ Hend).
      reflexivity.
    + cbn. rewrite lookup_app_l by exact (lookup_lt_Some _ _ _ Hl).
      exact Hl.
Qed.

(** X13. On a cursor in [[0, log_length - 1]] the down key is the cyclic
    successor and the up key the cyclic predecessor, so each undoes the
    other. *)
Theorem history_viewer_up_down_cycle (self : nat) (n c : Z) (s : State) :
  handlers (world s) !! self = Some (HistoryViewer n c) ->
  0 <= c <= n - 1 ->
  cursor_of self (HistoryViewer_ev_keydown self KeySym.DOWN s).1
    = Some ((c + 1) mod n) /\
  cursor_of self (HistoryViewer_ev_keydown self KeySym.UP s).1
    = Some ((c - 1) mod n) /\
  cursor_of self
    (HistoryViewer_ev_keydown self KeySym.UP
       (HistoryViewer_ev_keydown self KeySym.DOWN s).1).1 = Some c /\
  cursor_of self
    (HistoryViewer_ev_keydown self KeySym.DOWN
       (HistoryViewer_ev_keydown self KeySym.UP s).1).1 = Some c.
Proof.
  intros Hl Hc.
  assert (Hkey : forall (st : State) (c0 sym adjust : Z),
            handlers (world st) !! self = Some (HistoryViewer n c0) ->
            CURSOR_Y_KEYS !! sym = Some adjust ->
            (HistoryViewer_ev_keydown self sym st).1
              = with_cursor self n (moved_cursor n c0 adjust) st /\
            cursor_of self (HistoryViewer_ev_keydown self sym st).1
              = Some (moved_cursor n c0 adjust)).
  { intros st c0 sym adjust Hst Hmap.
    rewrite (HistoryViewer_ev_keydown_cursor_key _ _ _ _ _ _ Hst Hmap).
    split; [reflexivity |]. unfold cursor_of. cbn [fst].
    rewrite (with_cursor_lookup _ _ _ _ _ Hst). reflexivity. }
  assert (Hdown : moved_cursor n c 1 = (c + 1) mod n).
  { unfold moved_cursor. cbn [Z.ltb Z.gtb Z.compare andb].
    destruct (Z.eqb_spec c (n - 1)) as [-> | Hne].
    - replace (n - 1 + 1) with n by lia. rewrite Z_mod_same_full.
      reflexivity.
    - rewrite Z.mod_small by lia. lia. }
  assert (Hup : moved_cursor n c (-1) = (c - 1) mod n).
  { unfold moved_cursor. cbn [Z.ltb Z.gtb Z.compare andb].
    destruct (Z.eqb_spec c 0) as [-> | Hne].
    - apply (Z.mod_unique_pos (0 - 1) n (-1) (n - 1)); lia.
    - rewrite Z.mod_small by lia. lia. }
  assert (Hback : moved_cursor n (moved_cursor n c 1) (-1) = c).
  { unfold moved_cursor. cbn [Z.ltb Z.gtb Z.compare andb].
    destruct (Z.eqb_spec c (n - 1)) as [-> | Hne].
    - rewrite Z.eqb_refl. lia.
    - destruct (Z.eqb_spec (Z.max 0 (Z.min (c + 1) (n - 1))) 0); lia. }
  assert (Hforth : moved_cursor n (moved_cursor n c (-1)) 1 = c).
  { unfold moved_cursor. cbn [Z.ltb Z.gtb Z.compare andb].
    destruct (Z.eqb_spec c 0) as [-> | Hne].
    - rewrite Z.eqb_refl. reflexivity.
    - destruct (Z.eqb_spec (Z.max 0 (Z.min (c + -1) (n - 1))) (n - 1)); lia. }
  destruct (Hkey s c KeySym.DOWN 1 Hl eq_refl) as [Hsd Hcd].
  destruct (Hkey s c KeySym.UP (-1) Hl eq_refl) as [Hsu Hcu].
  split; [rewrite Hcd, Hdown; reflexivity |].
  split; [rewrite Hcu, Hup; reflexivity |].
  split.
  - rewrite Hsd.
    destruct (Hkey (with_cursor self n (moved_cursor n c 1) s)
                (moved_cursor n c 1) KeySym.UP (-1)
                (with_cursor_lookup _ _ _ _ _ Hl) eq_refl) as [_ ->].
    rewrite Hback. reflexivity.
  - rewrite Hsu.
    destruct (Hkey (with_cursor self n (moved_cursor n c (-1)) s)
                (moved_cursor n c (-1)) KeySym.DOWN 1
                (with_cursor_lookup _ _ _ _ _ Hl) eq_refl) as [_ ->].
    rewrite Hforth. reflexivity.
Qed.

(** X14. On a cursor in [[0, log_length - 1]] the page keys wrap only at
    the edge they move towards: page-down from the bottom gives [0] and
    from anywhere else moves down by ten or stops at the bottom; page-up
    from the top gives the bottom and from anywhere else moves up by ten
    or stops at the top. *)
Theorem history_viewer_page_keys (self : nat) (n c : Z) (s : State) :
  handlers (world s) !! self = Some (HistoryViewer n c) ->
  0 <= c <= n - 1 ->
  exists down up : Z,
    cursor_of self (HistoryViewer_ev_keydown self KeySym.PAGEDOWN s).1
      = Some down /\
    cursor_of self (HistoryViewer_ev_keydown self KeySym.PAGEUP s).1
      = Some up /\
    (c = n - 1 -> down = 0) /\
    (c < n - 1 -> c < down <= n - 1 /\ down = Z.min (c + 10) (n - 1)) /\
    (c = 0 -> up = n - 1) /\
    (0 < c -> 0 <= up < c /\ up = Z.max 0 (c - 10)).
Proof.
  intros Hl Hc.
  exists (moved_cursor n c 10), (moved_cursor n c (-10)).
  split; [| split].
  - rewrite (HistoryViewer_ev_keydown_cursor_key self n c s KeySym.PAGEDOWN 10
               Hl eq_refl).
    unfold cursor_of. cbn [fst].
    rewrite (with_cursor_lookup _ _ _ _ _ Hl). reflexivity.
  - rewrite (HistoryViewer_ev_keydown_cursor_key self n c s KeySym.PAGEUP (-10)
               Hl eq_refl).
    unfold cursor_of. cbn [fst].
    rewrite (with_cursor_lookup _ _ _ _ _ Hl). reflexivity.
  - unfold moved_cursor. cbn [Z.ltb Z.gtb Z.compare andb].
    destruct (Z.eqb_spec c (n - 1)), (Z.eqb_spec c 0); repeat split; lia.
Qed.

(** *** The drop menu, from key press to turn *)

(** In an inventory menu a key whose offset is in [[0, 26]] and below
    the number of items selects the item at that offset. *)
Lemma inventory_keydown_item (self : nat) (h : Handler) (s : State)
    (sym : Z) (item : Item) :
  handlers (world s) !! self = Some h ->
  is_Inventory h = true ->
  0 <= sym - KeySym.a <= 26 ->
  inventory_items (player (world s)) !! Z.to_nat (sym - KeySym.a)
    = Some item ->
  ev_keydown self sym s = on_item_selected self item s.
Proof.
  intros Hl Hinv Hrange Hitem.
  rewrite (ev_keydown_resolves _ _ _ _ Hl).
  assert (Hguard : (0 <=? sym - KeySym.a) && (sym - KeySym.a <=? 26) = true).
  { apply andb_true_iff. rewrite !Z.leb_le. lia. }
  destruct h; try discriminate Hinv;
    unfold InventoryEventHandler_ev_keydown, mbind, M_bind at 1, bind at 1,
      gets; cbn zeta; rewrite Hguard; unfold py_index;
    rewrite (proj2 (Z.leb_le 0 (sym - KeySym.a)) (proj1 Hrange)), Hitem;
    reflexivity.
Qed.

(** In the drop menu the letter of a held item makes [dispatch] return
    the drop of that item. *)
Lemma drop_menu_dispatch (self : nat) (s : State) (sym : Z) (item : Item) :
  handlers (world s) !! self = Some InventoryDropHandler ->
  0 <= sym - KeySym.a <= 26 ->
  inventory_items (player (world s)) !! Z.to_nat (sym - KeySym.a)
    = Some item ->
  dispatch self (KeyDown sym) s
    = (s, Returned (Some (DropItem (player (world s)) item))).
Proof.
  intros Hl Hrange Hitem.
  unfold dispatch.
  rewrite (inventory_keydown_item _ _ _ _ _ Hl eq_refl Hrange Hitem).
  unfold on_item_selected, mbind, M_bind, bind.
  rewrite (get_object_lookup _ _ _ Hl). reflexivity.
Qed.

(** X15. In the drop menu, the letter of a held item whose drop succeeds:
    [handle_events] performs the drop of that item, then one enemy turn,
    then one field-of-view update, and the main mode is active again. *)
Theorem drop_menu_turn (self : nat) (s : State) (sym : Z) (item : Item)
    (w1 : World) :
  handlers (world s) !! self = Some InventoryDropHandler ->
  0 <= sym - KeySym.a <= 26 ->
  inventory_items (player (world s)) !! Z.to_nat (sym - KeySym.a)
    = Some item ->
  perform (DropItem (player (world s)) item) (world s) = (w1, Returned tt) ->
  handle_events self (KeyDown sym) s
    = (switched_to MainGameEventHandler
         (mkState (update_fov (handle_enemy_turns w1))
            (calls s ++ [CallPerform (DropItem (player (world s)) item);
                         CallHandleEnemyTurns; CallUpdateFov])),
       Returned tt).
Proof.
  intros Hl Hrange Hitem Hp.
  unfold handle_events, mbind, M_bind at 1, bind at 1.
  rewrite (get_object_lookup _ _ _ Hl).
  unfold mbind, M_bind at 1, bind at 1.
  rewrite (drop_menu_dispatch _ _ _ _ Hl Hrange Hitem).
  unfold is_AskUser, AskUserEventHandler_handle_action,
    EventHandler_handle_action, try_except, call_perform, run, log_call,
    engine_handle_enemy_turns, engine_update_fov, new_MainGameEventHandler,
    new_object, set_event_handler, modify, gets,
    mbind, M_bind, bind, mret, M_ret, ret.
  cbn. rewrite Hp. cbn. unfold switched_to. cbn.
  rewrite <- !app_assoc. reflexivity.
Qed.

(** X16. In the drop menu, the letter of a held item whose drop is
    [Impossible(reason)]: [handle_events] logs [reason] with
    [color.impossible], takes no turn and leaves the active handler as
    [perform] left it, so the menu stays open. *)
Theorem drop_menu_refused (self : nat) (s : State) (sym : Z) (item : Item)
    (w1 : World) (reason : string) (rest : list string) :
  handlers (world s) !! self = Some InventoryDropHandler ->
  0 <= sym - KeySym.a <= 26 ->
  inventory_items (player (world s)) !! Z.to_nat (sym - KeySym.a)
    = Some item ->
  perform (DropItem (player (world s)) item) (world s)
    = (w1, Raised (Impossible (reason :: rest))) ->
  exists s' : State,
    handle_events self (KeyDown sym) s = (s', Returned tt) /\
    messages (world s')
      = add_message reason color_impossible (messages w1) /\
    calls s' = calls s ++ [CallPerform (DropItem (player (world s)) item);
                           CallAddMessage reason color_impossible] /\
    event_handler (world s') = event_handler w1 /\
    handlers (world s') = handlers w1.
Proof.
  intros Hl Hrange Hitem Hp. eexists. split.
  - unfold handle_events, mbind, M_bind at 1, bind at 1.
    rewrite (get_object_lookup _ _ _ Hl).
    unfold mbind, M_bind at 1, bind at 1.
    rewrite (drop_menu_dispatch _ _ _ _ Hl Hrange Hitem).
    unfold is_AskUser, AskUserEventHandler_handle_action,
      EventHandler_handle_action, try_except, call_perform, run, log_call,
      engine_add_message, modify, mbind, M_bind, bind, mret, M_ret, ret.
    cbn. rewrite Hp. cbn. rewrite args_0_cons. cbn. reflexivity.
  - cbn. rewrite <- !app_assoc. repeat split.
Qed.

(** *** The other inventory classes *)

(** X17. The base [InventoryEventHandler] is abstract: the letter of a
    held item makes [handle_events] raise [NotImplementedError], with the
    state as it was. *)
Theorem inventory_base_not_implemented (self : nat) (s : State) (sym : Z)
    (item : Item) :
  handlers (world s) !! self = Some InventoryEventHandler ->
  0 <= sym - KeySym.a <= 26 ->
  inventory_items (player (world s)) !! Z.to_nat (sym - KeySym.a)
    = Some item ->
  handle_events self (KeyDown sym) s = (s, Raised NotImplementedError).
Proof.
  intros Hl Hrange Hitem.
  apply (handle_events_raises _ _ _ _ _ _ Hl).
  unfold dispatch.
  rewrite (inventory_keydown_item _ _ _ _ _ Hl eq_refl Hrange Hitem).
  unfold on_item_selected, mbind, M_bind, bind.
  rewrite (get_object_lookup _ _ _ Hl). reflexivity.
Qed.

(** X18. In the use menu the item's [get_action] decides: when it
    returns no action, [handle_events] performs nothing, takes no turn and
    leaves the world as [get_action] left it; when it raises, so does
    [handle_events]. *)
Theorem activate_menu_without_action (self : nat) (s : State) (sym : Z)
    (item : Item) (w0 : World) :
  handlers (world s) !! self = Some InventoryActivateHandler ->
  0 <= sym - KeySym.a <= 26 ->
  inventory_items (player (world s)) !! Z.to_nat (sym - KeySym.a)
    = Some item ->
  (consumable_get_action item (player (world s)) (world s)
     = (w0, Returned None) ->
   handle_events self (KeyDown sym) s = (mkState w0 (calls s), Returned tt)) /\
  (forall e : Exn,
     consumable_get_action item (player (world s)) (world s)
       = (w0, Raised e) ->
     handle_events self (KeyDown sym) s = (mkState w0 (calls s), Raised e)).
Proof.
  intros Hl Hrange Hitem.
  assert (Hd : dispatch self (KeyDown sym) s
               = (mkState
                    (consumable_get_action item (player (world s)) (world s)).1
                    (calls s),
                  (consumable_get_action item (player (world s)) (world s)).2)).
  { unfold dispatch.
    rewrite (inventory_keydown_item _ _ _ _ _ Hl eq_refl Hrange Hitem).
    unfold on_item_selected, mbind, M_bind, bind.
    rewrite (get_object_lookup _ _ _ Hl). reflexivity. }
  split.
  - intros Hget. rewrite Hget in Hd.
    exact (handle_events_no_action _ _ _ _ _ Hl Hd).
  - intros e Hget. rewrite Hget in Hd.
    exact (handle_events_raises _ _ _ _ _ _ Hl Hd).
Qed.

(** *** Handler objects are kept *)

Lemma same_class_refl (h : Handler) : same_class h h.
Proof. destruct h; reflexivity. Qed.

Lemma handlers_kept_same (self : nat) (w w' : World) :
  handlers w' = handlers w ->
  event_handler w' = event_handler w ->
  handlers_kept self w w'.
Proof.
  intros Hh He. split.
  - intros i h0 Hi. exists h0. rewrite Hh.
    split; [exact Hi |]. split; [apply same_class_refl | reflexivity].
  - rewrite Hh, He. trivial.
Qed.

Lemma handlers_kept_switched (self : nat) (h : Handler) (s : State) :
  handlers_kept self (world s) (world (switched_to h s)).
Proof.
  split.
  - intros i h0 Hi. exists h0. cbn.
    rewrite lookup_app_l by exact (lookup_lt_Some _ _ _ Hi).
    split; [exact Hi |]. split; [apply same_class_refl | reflexivity].
  - intros _. exists h. exact (active_switched_to h s).
Qed.

Lemma handlers_kept_cursor (self : nat) (n c c' : Z) (s : State) :
  handlers (world s) !! self = Some (HistoryViewer n c) ->
  handlers_kept self (world s) (world (with_cursor self n c' s)).
Proof.
  intros Hl. split.
  - intros i h0 Hi. destruct (decide (i = self)) as [-> | Hne].
    + exists (HistoryViewer n c').
      split; [exact (with_cursor_lookup _ _ _ _ _ Hl) |].
      rewrite Hl in Hi. injection Hi as <-.
      split; [reflexivity | intros Hne; destruct (Hne eq_refl)].
    + exists h0. cbn. rewrite list_lookup_insert_ne by auto.
      split; [exact Hi |]. split; [apply same_class_refl | reflexivity].
  - cbn. intros [h0 Hactive].
    destruct (decide (event_handler (world s) = self)) as [Heq | Hne].
    + rewrite Heq. rewrite list_lookup_insert_eq
        by exact (lookup_lt_Some _ _ _ Hl). eexists. reflexivity.
    + rewrite list_lookup_insert_ne by auto. eexists. exact Hactive.
Qed.

(** X19. Handler code never loses a handler object.  Whatever the class
    of [self] and whatever the event, after [dispatch] every object that
    was in the store is still there with its class, a history viewer with
    its snapshot, and only the object at [self] may have changed; an
    active handler that pointed to an object still does.  The one
    collaborator [dispatch] calls, [get_action], is taken to leave the
    handlers alone. *)
Theorem dispatch_keeps_handlers (self : nat) (h : Handler) (event : Event)
    (s s' : State) (r : Outcome (option Action)) :
  handlers (world s) !! self = Some h ->
  (forall (item : Item) (p : Actor) (w : World),
     handlers (consumable_get_action item p w).1 = handlers w /\
     event_handler (consumable_get_action item p w).1 = event_handler w) ->
  dispatch self event s = (s', r) ->
  handlers_kept self (world s) (world s').
Proof.
  intros Hl Hget Hd.
  assert (Hsame : handlers_kept self (world s) (world s))
    by (apply handlers_kept_same; reflexivity).
  destruct event as [sym | x y | | |].
  - unfold dispatch in Hd. rewrite (ev_keydown_resolves _ _ _ _ Hl) in Hd.
    assert (Hdefault : forall st r0,
              is_AskUser h = true ->
              AskUserEventHandler_ev_keydown self sym s = (st, r0) ->
              handlers_kept self (world s) (world st)).
    { intros st r0 Hask. unfold AskUserEventHandler_ev_keydown.
      case_bool_decide.
      - intros [= <- <-]. exact Hsame.
      - rewrite (on_exit_switches _ _ _ Hl Hask). intros [= <- <-].
        apply handlers_kept_switched. }
    assert (Hmenu : forall st r0,
              is_Inventory h = true ->
              InventoryEventHandler_ev_keydown self sym s = (st, r0) ->
              handlers_kept self (world s) (world st)).
    { intros st r0 Hinv.
      assert (Hask : is_AskUser h = true)
        by (destruct h; try discriminate Hinv; reflexivity).
      unfold InventoryEventHandler_ev_keydown, mbind, M_bind at 1,
        bind at 1, gets. cbn zeta.
      destruct ((0 <=? sym - KeySym.a) && (sym - KeySym.a <=? 26));
        [| exact (Hdefault st r0 Hask)].
      destruct (py_index (inventory_items (player (world s)))
                  (sym - KeySym.a)) as [item |].
      - unfold on_item_selected, mbind, M_bind at 1, bind at 1.
        rewrite (get_object_lookup _ _ _ Hl).
        destruct h; try discriminate Hinv.
        + intros [= <- <-]. exact Hsame.
        + unfold InventoryActivateHandler_on_item_selected, run, gets,
            mbind, M_bind, bind. cbn.
          intros [= <- <-]. apply handlers_kept_same; cbn; apply Hget.
        + intros [= <- <-]. exact Hsame.
      - intros [= <- <-]. apply handlers_kept_same; reflexivity. }
    destruct h.
    + injection Hd as <- <-. exact Hsame.
    + exact (Hdefault _ _ eq_refl Hd).
    + exact (Hmenu _ _ eq_refl Hd).
    + exact (Hmenu _ _ eq_refl Hd).
    + exact (Hmenu _ _ eq_refl Hd).
    + revert Hd.
      unfold MainGameEventHandler_ev_keydown, mbind, M_bind at 1,
        bind at 1, gets. cbn zeta.
      destruct (MOVE_KEYS !! sym) as [[dx dy] |];
        repeat case_bool_decide; intros [= <- <-];
        first [exact Hsame | apply handlers_kept_switched].
    + revert Hd. unfold GameOverEventHandler_ev_keydown.
      case_bool_decide; intros [= <- <-]; exact Hsame.
    + destruct (HistoryViewer_ev_keydown_cases self _ _ s sym Hl)
        as [(c' & _ & Hk) | Hk]; rewrite Hk in Hd; injection Hd as <- <-.
      * exact (handlers_kept_cursor _ _ _ _ _ Hl).
      * apply handlers_kept_switched.
  - rewrite (dispatch_mouse_motion _ _ _ _ _ Hl) in Hd.
    injection Hd as <- <-.
    destruct (in_bounds (game_map (world s)) x y);
      [apply handlers_kept_same; reflexivity | exact Hsame].
  - revert Hd. unfold dispatch, ev_mousebuttondown, mbind, M_bind, bind.
    rewrite (get_object_lookup _ _ _ Hl).
    destruct (is_AskUser h) eqn:Hask.
    + unfold AskUserEventHandler_ev_mousebuttondown.
      rewrite (on_exit_switches _ _ _ Hl Hask). intros [= <- <-].
      apply handlers_kept_switched.
    + intros [= <- <-]. exact Hsame.
  - revert Hd. unfold dispatch, mbind, M_bind, bind.
    rewrite (get_object_lookup _ _ _ Hl). intros [= <- <-]. exact Hsame.
  - revert Hd. unfold dispatch, mbind, M_bind, bind.
    rewrite (get_object_lookup _ _ _ Hl). intros [= <- <-]. exact Hsame.
Qed.

End MoreProperties.

(** ** Properties of the rendering *)

Section RenderProperties.
Context `{C : Collaborators} {Rd : Rendering}.

Lemma print_items_emits (x y : Z) (items : list Item) :
  forall (i : Z) (st : RenderState),
    print_items x y i items st
      = (mkRenderState (shown st) (draws st ++ item_lines x y i items),
         Returned tt).
Proof.
  induction items as [| item rest IH]; intros i st; cbn.
  - rewrite app_nil_r. destruct st; reflexivity.
  - unfold mbind, R_bind, rbind, emit. cbn.
    rewrite IH. cbn. rewrite <- app_assoc. reflexivity.
Qed.

Lemma item_lines_length (x y : Z) (items : list Item) :
  forall i : Z, length (item_lines x y i items) = length items.
Proof.
  induction items as [| item rest IH]; intros i; cbn;
    [reflexivity | rewrite IH; reflexivity].
Qed.

Lemma item_lines_lookup (x y : Z) (items : list Item) :
  forall (i : Z) (k : nat) (item : Item),
    items !! k = Some item ->
    item_lines x y i items !! k
      = Some (Print Screen (x + 1) (y + (i + Z.of_nat k) + 1)
                (ItemLine (97 + (i + Z.of_nat k)) (item_name item))).
Proof.
  induction items as [| first rest IH]; intros i k item Hk;
    [discriminate |].
  destruct k as [| k].
  - injection Hk as ->. change (Z.of_nat 0) with 0.
    rewrite Z.add_0_r. reflexivity.
  - transitivity (item_lines x y (i + 1) rest !! k); [reflexivity |].
    rewrite (IH (i + 1) k item Hk), Nat2Z.inj_succ.
    replace (i + 1 + Z.of_nat k) with (i + Z.succ (Z.of_nat k)) by lia.
    reflexivity.
Qed.

Lemma item_lines_rows (x y : Z) (items : list Item) :
  forall (i : Z) (d : Draw),
    d ∈ item_lines x y i items ->
    exists (row : Z) (text : Text),
      d = Print Screen (x + 1) row text /\
      y + i < row <= y + i + Z.of_nat (length items).
Proof.
  induction items as [| item rest IH]; intros i d Hd; cbn in Hd.
  - inversion Hd.
  - apply elem_of_cons in Hd as [-> | Hd].
    + eexists _, _. split; [reflexivity |]. cbn [length]. lia.
    + destruct (IH (i + 1) d Hd) as (row & text & -> & Hrow).
      exists row, text. split; [reflexivity |]. cbn [length]. lia.
Qed.

(** What [InventoryEventHandler.on_render] draws. *)
Lemma InventoryEventHandler_on_render_draws (self : nat) (h : Handler)
    (title : string) (st : RenderState) :
  handlers (engine_render (shown st)) !! self = Some h ->
  TITLE h = Some title ->
  let w1 := engine_render (shown st) in
  let items := inventory_items (player w1) in
  let x := if actor_x (player w1) <=? 30 then 40 else 0 in
  InventoryEventHandler_on_render self st
    = (mkRenderState w1
         (draws st ++
            EngineRender ::
            DrawFrame Screen x 0 (Z.of_nat (String.length title) + 4)
              (Z.max 3 (Z.of_nat (length items) + 2)) title true
              (Some (255, 255, 255)) (Some (0, 0, 0)) ::
            (if Z.of_nat (length items) >? 0 then item_lines x 0 0 items
             else [Print Screen (x + 1) (0 + 1) (Plain "(Empty)")])),
       Returned tt).
Proof.
  intros Hl Htitle w1 items x. subst x items w1.
  unfold InventoryEventHandler_on_render, EventHandler_on_render,
    get_TITLE, render_object, emit, rmodify, rgets,
    mbind, R_bind, rbind, mret, R_ret, rret.
  cbn [shown draws]. rewrite Hl, Htitle. cbn [shown draws].
  set (w1 := engine_render (shown st)).
  set (n := Z.of_nat (length (inventory_items (player w1)))).
  destruct (Z.leb_spec (n + 2) 3) as [Hsmall | Hbig];
    [rewrite Z.max_l by lia | rewrite Z.max_r by lia];
    destruct (n >? 0) eqn:Hn;
    rewrite ?print_items_emits; cbn [shown draws];
    rewrite <- !app_assoc; reflexivity.
Qed.

(** X20. The inventory menu, for each of the three inventory classes:
    after [engine.render], one frame is drawn, at column [40] when the
    player's [x] is at most [30] and at column [0] otherwise, as wide as
    the class title plus four and [max 3 (items + 2)] high; then one line
    per item, in order, each with its letter and its name, or, with no
    item, the single line ["(Empty)"] on row [1].  Every line is printed
    in column [x + 1] on a row strictly inside the frame, and the frame
    never covers the player's column. *)
Theorem inventory_menu_layout (self : nat) (h : Handler) (st : RenderState) :
  handlers (engine_render (shown st)) !! self = Some h ->
  is_Inventory h = true ->
  let w1 := engine_render (shown st) in
  let items := inventory_items (player w1) in
  let x := if actor_x (player w1) <=? 30 then 40 else 0 in
  let height := Z.max 3 (Z.of_nat (length items) + 2) in
  exists (title : string) (lines : list Draw),
    TITLE h = Some title /\
    InventoryEventHandler_on_render self st
      = (mkRenderState w1
           (draws st ++
              EngineRender ::
              DrawFrame Screen x 0 (Z.of_nat (String.length title) + 4)
                height title true (Some (255, 255, 255)) (Some (0, 0, 0)) ::
              lines),
         Returned tt) /\
    length lines = Nat.max 1 (length items) /\
    (forall d : Draw,
       d ∈ lines ->
       exists (row : Z) (text : Text),
         d = Print Screen (x + 1) row text /\ 0 < row < height - 1) /\
    (items = [] -> lines = [Print Screen (x + 1) 1 (Plain "(Empty)")]) /\
    (forall (k : nat) (item : Item),
       items !! k = Some item ->
       lines !! k
         = Some (Print Screen (x + 1) (Z.of_nat k + 1)
                   (ItemLine (97 + Z.of_nat k) (item_name item)))) /\
    ~ (x <= actor_x (player w1)
         < x + (Z.of_nat (String.length title) + 4)).
Proof.
  intros Hl Hinv w1 items x height.
  assert (Htitle : exists title : string,
            TITLE h = Some title /\ Z.of_nat (String.length title) + 4 <= 31).
  { destruct h; try discriminate Hinv; eexists; (split; [reflexivity |]);
      cbn; lia. }
  destruct Htitle as (title & Htitle & Hwidth).
  exists title,
    (if Z.of_nat (length items) >? 0 then item_lines x 0 0 items
     else [Print Screen (x + 1) (0 + 1) (Plain "(Empty)")]).
  split; [exact Htitle |]. split; [| split; [| split; [| split; [| split]]]].
  - exact (InventoryEventHandler_on_render_draws _ _ _ _ Hl Htitle).
  - destruct (Z.gtb_spec (Z.of_nat (length items)) 0) as [Hpos | Hzero].
    + rewrite item_lines_length. lia.
    + cbn. lia.
  - intros d Hd.
    destruct (Z.gtb_spec (Z.of_nat (length items)) 0) as [Hpos | Hzero].
    + destruct (item_lines_rows _ _ _ _ _ Hd) as (row & text & -> & Hrow).
      exists row, text. split; [reflexivity |]. unfold height. lia.
    + apply list_elem_of_singleton in Hd as ->.
      eexists _, _. split; [reflexivity |]. unfold height. lia.
  - intros Hempty. rewrite Hempty. reflexivity.
  - intros k item Hitem.
    pose proof (lookup_lt_Some _ _ _ Hitem) as Hlt.
    rewrite (proj2 (Z.gtb_gt (Z.of_nat (length items)) 0)) by lia.
    rewrite (item_lines_lookup x 0 items 0 k item Hitem).
    repeat f_equal; lia.
  - unfold x. destruct (Z.leb_spec (actor_x (player w1)) 30); lia.
Qed.

(** X21. What the menu shows is what the keys select.  For an item at
    offset [k <= 25]: the menu prints it on row [k + 1] with the label
    whose code point is [97 + k] (the letters [a] to [z]), and in the
    world as rendered the key with that code makes [ev_keydown] call
    [on_item_selected] with that very item. *)
Theorem inventory_label_selects (self : nat) (h : Handler)
    (st : RenderState) (issued : list Call) (k : nat) (item : Item) :
  handlers (engine_render (shown st)) !! self = Some h ->
  is_Inventory h = true ->
  inventory_items (player (engine_render (shown st))) !! k = Some item ->
  (k <= 25)%nat ->
  let w1 := engine_render (shown st) in
  let x := if actor_x (player w1) <=? 30 then 40 else 0 in
  let item_key := 97 + Z.of_nat k in
  (draws (InventoryEventHandler_on_render self st).1
       !! (length (draws st) + 2 + k)%nat
     = Some (Print Screen (x + 1) (Z.of_nat k + 1)
               (ItemLine item_key (item_name item)))) /\
  ev_keydown self item_key (mkState w1 issued)
    = on_item_selected self item (mkState w1 issued).
Proof.
  intros Hl Hinv Hitem Hk w1 x item_key. split.
  - assert (Htitle : exists title : string, TITLE h = Some title)
      by (destruct h; try discriminate Hinv; eexists; reflexivity).
    destruct Htitle as [title Htitle].
    rewrite (InventoryEventHandler_on_render_draws _ _ _ _ Hl Htitle).
    cbn [fst draws]. fold w1. fold x.
    assert (Hpos : (Z.of_nat (length (inventory_items (player w1))) >? 0)
                   = true).
    { apply Z.gtb_gt. pose proof (lookup_lt_Some _ _ _ Hitem) as Hlt.
      fold w1 in Hlt. lia. }
    rewrite Hpos.
    rewrite lookup_app_r by lia.
    replace (length (draws st) + 2 + k - length (draws st))%nat
      with (S (S k)) by lia.
    cbn [lookup list_lookup].
    fold w1 in Hitem.
    etransitivity; [exact (item_lines_lookup x 0 _ 0 k item Hitem) |].
    unfold item_key. repeat f_equal; lia.
  - apply (inventory_keydown_item self h (mkState w1 issued) item_key item
             Hl Hinv).
    + unfold item_key, KeySym.a. lia.
    + unfold item_key, KeySym.a. cbn [world].
      replace (Z.to_nat (97 + Z.of_nat k - 97)) with k by lia.
      exact Hitem.
Qed.

(** X22. The history viewer, after [engine.render]: on a console at
    least six columns wide and six rows high it draws a panel six columns
    and six rows smaller than the console and puts it at [(3, 3)]; on a
    smaller console the constructor of the panel raises [ValueError] and
    nothing more is drawn.  The messages passed to [render_messages] are
    [messages[: cursor + 1]]: with the cursor inside the log, the first
    [cursor + 1] messages, the last of them the one under the cursor; with
    the cursor at [-1], none. *)
Theorem history_viewer_shows_prefix (self : nat) (n c : Z)
    (st : RenderState) (console_width console_height : Z) :
  handlers (engine_render (shown st)) !! self = Some (HistoryViewer n c) ->
  let w1 := engine_render (shown st) in
  let visible := py_slice_to (messages w1) (c + 1) in
  (6 <= console_width -> 6 <= console_height ->
   HistoryViewer_on_render self console_width console_height st
     = (mkRenderState w1
          (draws st ++
             [EngineRender;
              NewConsole (console_width - 6) (console_height - 6);
              DrawFrame LogConsole 0 0 (console_width - 6)
                (console_height - 6) "" true None None;
              PrintBoxCentered LogConsole 0 0 (console_width - 6) 1
                "┤Message history├";
              RenderMessages LogConsole 1 1 (console_width - 6 - 2)
                (console_height - 6 - 2) visible;
              Blit LogConsole Screen 3 3]),
        Returned tt)) /\
  (console_width < 6 \/ console_height < 6 ->
   HistoryViewer_on_render self console_width console_height st
     = (mkRenderState w1 (draws st ++ [EngineRender]),
        Raised (OtherError "ValueError"))) /\
  (0 <= c < Z.of_nat (length (messages w1)) ->
   visible = take (S (Z.to_nat c)) (messages w1) /\
   length visible = S (Z.to_nat c) /\
   last visible = messages w1 !! Z.to_nat c) /\
  (c = -1 -> visible = []).
Proof.
  intros Hl w1 visible. split; [| split; [| split]].
  - intros Hw Hh.
    unfold HistoryViewer_on_render, EventHandler_on_render, new_console,
      render_object, emit, rmodify, rgets,
      mbind, R_bind, rbind, mret, R_ret, rret.
    cbn [shown draws].
    rewrite (proj2 (Z.ltb_ge (console_width - 6) 0)) by lia.
    rewrite (proj2 (Z.ltb_ge (console_height - 6) 0)) by lia.
    cbn [orb shown draws]. rewrite Hl. cbn [shown draws].
    rewrite <- !app_assoc. reflexivity.
  - intros Hsmall.
    unfold HistoryViewer_on_render, EventHandler_on_render, new_console,
      emit, rmodify, rraise, mbind, R_bind, rbind.
    cbn [shown draws].
    assert (Hneg : (console_width - 6 <? 0) || (console_height - 6 <? 0)
                   = true).
    { apply orb_true_iff. rewrite !Z.ltb_lt. lia. }
    rewrite Hneg. reflexivity.
  - intros Hc.
    assert (Hvis : visible = take (S (Z.to_nat c)) (messages w1)).
    { unfold visible, py_slice_to.
      destruct (Z.ltb_spec (c + 1) 0) as [Hneg | _]; [lia |].
      f_equal. lia. }
    split; [exact Hvis |]. split.
    + rewrite Hvis, length_take. lia.
    + rewrite Hvis, last_lookup, length_take.
      replace (Init.Nat.pred (S (Z.to_nat c) `min` length (messages w1)))
        with (Z.to_nat c) by lia.
      apply lookup_take_lt. lia.
  - intros ->. unfold visible, py_slice_to.
    change (-1 + 1) with 0. cbn.
    rewrite Z.min_l by lia. reflexivity.
Qed.

End RenderProperties.

(** ** The failure properties on the cursed world *)

Section CursedWorld.
#[local] Existing Instance Demo.types.
#[local] Existing Instance DemoMore.cursed.

Lemma handle_action_propagates_witness :
  handlers (world Demo.playing) !! 0%nat = Some MainGameEventHandler /\
  perform DemoMore.crashing (world Demo.playing)
    = (world Demo.playing, Raised (OtherError "KeyError")) /\
  (forall args : list string, OtherError "KeyError" <> Impossible args) /\
  EventHandler_handle_action 0 (Some DemoMore.crashing) Demo.playing
    = (mkState (world Demo.playing)
         (calls Demo.playing ++ [CallPerform DemoMore.crashing]),
       Raised (OtherError "KeyError")) /\
  handle_action 0 (Some DemoMore.crashing) Demo.playing
    = (mkState (world Demo.playing)
         (calls Demo.playing ++ [CallPerform DemoMore.crashing]),
       Raised (OtherError "KeyError")).
Proof.
  assert (Hother : forall args : list string,
            OtherError "KeyError" <> Impossible args)
    by (intros args; discriminate).
  split; [reflexivity |]. split; [reflexivity |]. split; [exact Hother |].
  exact (handle_action_propagates 0%nat MainGameEventHandler
           DemoMore.crashing Demo.playing (world Demo.playing)
           (OtherError "KeyError") eq_refl eq_refl Hother).
Defined.

Lemma handle_action_impossible_without_reason_witness :
  perform Demo.wait (world Demo.playing)
    = (world Demo.playing, Raised (Impossible [])) /\
  EventHandler_handle_action 0 (Some Demo.wait) Demo.playing
    = (mkState (world Demo.playing)
         (calls Demo.playing ++ [CallPerform Demo.wait]),
       Raised IndexError).
Proof.
  split; [reflexivity |].
  exact (handle_action_impossible_without_reason 0%nat Demo.wait
           Demo.playing (world Demo.playing) eq_refl).
Defined.

Lemma drop_menu_refused_witness :
  handlers (world Demo.dropping) !! 0%nat = Some InventoryDropHandler /\
  0 <= KeySym.b - KeySym.a <= 26 /\
  inventory_items (player (world Demo.dropping))
      !! Z.to_nat (KeySym.b - KeySym.a) = Some "scroll"%string /\
  perform (DropItem (player (world Demo.dropping)) "scroll"%string)
      (world Demo.dropping)
    = (world Demo.dropping,
       Raised (Impossible ["The scroll is cursed."%string])) /\
  exists s' : State,
    handle_events 0 (KeyDown KeySym.b) Demo.dropping = (s', Returned tt) /\
    messages (world s')
      = add_message "The scroll is cursed." color_impossible
          (messages (world Demo.dropping)) /\
    calls s'
      = calls Demo.dropping ++
          [CallPerform (DropItem (player (world Demo.dropping))
                          "scroll"%string);
           CallAddMessage "The scroll is cursed." color_impossible] /\
    event_handler (world s') = event_handler (world Demo.dropping) /\
    handlers (world s') = handlers (world Demo.dropping).
Proof.
  assert (Hrange : 0 <= KeySym.b - KeySym.a <= 26)
    by (unfold KeySym.b, KeySym.a; lia).
  split; [reflexivity |]. split; [exact Hrange |].
  split; [reflexivity |]. split; [reflexivity |].
  exact (drop_menu_refused 0%nat Demo.dropping KeySym.b "scroll"%string
           (world Demo.dropping) "The scroll is cursed."%string []
           eq_refl Hrange eq_refl eq_refl).
Defined.

Lemma activate_menu_without_action_witness :
  handlers (world DemoMore.use_menu) !! 0%nat
    = Some InventoryActivateHandler /\
  0 <= KeySym.a - KeySym.a <= 26 /\
  inventory_items (player (world DemoMore.use_menu))
      !! Z.to_nat (KeySym.a - KeySym.a) = Some "potion"%string /\
  consumable_get_action "potion"%string (player (world DemoMore.use_menu))
      (world DemoMore.use_menu)
    = (world DemoMore.use_menu, Returned None) /\
  handle_events 0 (KeyDown KeySym.a) DemoMore.use_menu
    = (mkState (world DemoMore.use_menu) (calls DemoMore.use_menu),
       Returned tt).
Proof.
  assert (Hrange : 0 <= KeySym.a - KeySym.a <= 26)
    by (unfold KeySym.a; lia).
  split; [reflexivity |]. split; [exact Hrange |].
  split; [reflexivity |]. split; [reflexivity |].
  exact (proj1 (activate_menu_without_action 0%nat DemoMore.use_menu
                  KeySym.a "potion"%string (world DemoMore.use_menu)
                  eq_refl Hrange eq_refl) eq_refl).
Defined.

(** A refused drop, seen from [handle_action]: the base handler answers
    [False], so does the wrapper, and the drop menu is still the active
    handler. *)
Example refused_drop_keeps_menu :
  (EventHandler_handle_action 0 (Some DemoMore.drop_scroll) Demo.dropping).2
    = Returned false /\
  (handle_action 0 (Some DemoMore.drop_scroll) Demo.dropping).2
    = Returned false /\
  active_handler
    (world (handle_action 0 (Some DemoMore.drop_scroll) Demo.dropping).1)
    = Some InventoryDropHandler.
Proof. repeat split. Qed.

End CursedWorld.

(** ** The properties on the concrete world *)

#[local] Existing Instances Demo.types Demo.collaborators.

Lemma handle_action_turn_witness :
  perform Demo.wait (world Demo.playing) = (world Demo.playing, Returned tt) /\
  EventHandler_handle_action 0 None Demo.playing
    = (Demo.playing, Returned false) /\
  EventHandler_handle_action 0 (Some Demo.wait) Demo.playing
    = (mkState (update_fov (handle_enemy_turns (world Demo.playing)))
         (calls Demo.playing ++ [CallPerform Demo.wait]
            ++ [CallHandleEnemyTurns; CallUpdateFov]),
       Returned true).
Proof.
  split; [reflexivity |].
  destruct (handle_action_turn 0%nat Demo.wait Demo.playing
              (world Demo.playing)) as [Hnone Hturn].
  split; [exact Hnone | exact (Hturn eq_refl)].
Defined.

Lemma handle_action_impossible_witness :
  perform Demo.bump_nowhere (world Demo.playing)
    = (world Demo.playing, Raised (Impossible ["That way is blocked."%string])) /\
  exists issued : list Call,
    EventHandler_handle_action 0 (Some Demo.bump_nowhere) Demo.playing
      = (mkState
           (set_messages
              (add_message "That way is blocked." color_impossible
                 (messages (world Demo.playing)))
              (world Demo.playing))
           (calls Demo.playing ++ issued),
         Returned false) /\
    issued = [CallPerform Demo.bump_nowhere;
              CallAddMessage "That way is blocked." color_impossible] /\
    (CallHandleEnemyTurns ∉ issued) /\
    (CallUpdateFov ∉ issued).
Proof.
  split; [reflexivity |].
  apply (handle_action_impossible 0%nat Demo.bump_nowhere Demo.playing
           (world Demo.playing) "That way is blocked."%string []).
  reflexivity.
Defined.

Lemma ask_user_handle_action_exit_witness :
  handlers (world Demo.dropping) !! 0%nat = Some InventoryDropHandler /\
  is_AskUser InventoryDropHandler = true /\
  EventHandler_handle_action 0 (Some Demo.drop_potion) Demo.dropping
    = ((EventHandler_handle_action 0 (Some Demo.drop_potion)
          Demo.dropping).1,
       Returned true) /\
  handle_action 0 (Some Demo.drop_potion) Demo.dropping
    = (switched_to MainGameEventHandler
         (EventHandler_handle_action 0 (Some Demo.drop_potion)
            Demo.dropping).1,
       Returned true) /\
  AskUserEventHandler_handle_action 0 (Some Demo.drop_potion) Demo.dropping
    = (switched_to MainGameEventHandler
         (EventHandler_handle_action 0 (Some Demo.drop_potion)
            Demo.dropping).1,
       Returned true) /\
  active_handler
    (world (switched_to MainGameEventHandler
              (EventHandler_handle_action 0 (Some Demo.drop_potion)
                 Demo.dropping).1))
    = Some MainGameEventHandler.
Proof.
  split; [reflexivity |]. split; [reflexivity |]. split; [reflexivity |].
  exact (proj1 (ask_user_handle_action_exit 0%nat InventoryDropHandler
                  (Some Demo.drop_potion) Demo.dropping
                  (EventHandler_handle_action 0 (Some Demo.drop_potion)
                     Demo.dropping).1
                  true eq_refl eq_refl eq_refl) eq_refl).
Defined.

Lemma history_viewer_navigation_witness :
  handlers (world Demo.viewing) !! 0%nat = Some (HistoryViewer 5 0) /\
  (KeySym.PAGEDOWN, 10) ∈ [(KeySym.UP, -1); (KeySym.DOWN, 1);
                           (KeySym.PAGEUP, -10); (KeySym.PAGEDOWN, 10)] /\
  exists c' : Z,
    HistoryViewer_ev_keydown 0 KeySym.PAGEDOWN Demo.viewing
      = (with_cursor 0 5 c' Demo.viewing, Returned None) /\
    cursor_of 0 (with_cursor 0 5 c' Demo.viewing) = Some c' /\
    (10 < 0 -> 0 = 0 -> c' = 5 - 1) /\
    (10 > 0 -> 0 = 5 - 1 -> c' = 0) /\
    (~ (10 < 0 /\ 0 = 0) -> ~ (10 > 0 /\ 0 = 5 - 1) ->
     c' = Z.max 0 (Z.min (0 + 10) (5 - 1)) /\
     (1 <= 5 -> 0 <= c' <= 5 - 1)).
Proof.
  assert (Hkey : (KeySym.PAGEDOWN, 10)
                 ∈ [(KeySym.UP, -1); (KeySym.DOWN, 1);
                    (KeySym.PAGEUP, -10); (KeySym.PAGEDOWN, 10)]).
  { do 3 apply list_elem_of_further. apply list_elem_of_here. }
  split; [reflexivity |]. split; [exact Hkey |].
  apply (history_viewer_navigation 0%nat 5 0 Demo.viewing KeySym.PAGEDOWN 10);
    [reflexivity | exact Hkey].
Defined.

(** With five messages, page-down from the top stops at [4]. *)
Example page_down_from_top_of_five :
  cursor_of 0 (HistoryViewer_ev_keydown 0 KeySym.PAGEDOWN Demo.viewing).1
    = Some 4.
Proof. reflexivity. Qed.

Lemma inventory_keydown_selects_witness :
  handlers (world Demo.dropping) !! 0%nat = Some InventoryDropHandler /\
  is_Inventory InventoryDropHandler = true /\
  0 <= KeySym.b - KeySym.a <= 26 /\
  exists item : Item,
    inventory_items (player (world Demo.dropping))
      !! Z.to_nat (KeySym.b - KeySym.a) = Some item /\
    ev_keydown 0 KeySym.b Demo.dropping = on_item_selected 0 item Demo.dropping.
Proof.
  assert (Hrange : 0 <= KeySym.b - KeySym.a <= 26)
    by (unfold KeySym.b, KeySym.a; lia).
  split; [reflexivity |]. split; [reflexivity |]. split; [exact Hrange |].
  apply (inventory_keydown_selects 0%nat InventoryDropHandler Demo.dropping
           KeySym.b eq_refl eq_refl Hrange).
  vm_compute. reflexivity.
Defined.

(** On the same menu [b] drops the scroll, and [c], past the two items,
    is an invalid entry that leaves the menu open. *)
Example drop_menu_b_and_c :
  ev_keydown 0 KeySym.b Demo.dropping
    = (Demo.dropping,
       Returned (Some (DropItem Demo.inventory "scroll"%string))) /\
  (ev_keydown 0 (KeySym.b + 1) Demo.dropping).2 = Returned None /\
  messages (world (ev_keydown 0 (KeySym.b + 1) Demo.dropping).1)
    = Demo.welcome ++ [("Invalid entry."%string, (255, 255, 0))] /\
  active_handler (world (ev_keydown 0 (KeySym.b + 1) Demo.dropping).1)
    = Some InventoryDropHandler.
Proof. repeat split. Qed.

(** C6 as stated fails on an empty log: the viewer is entered with
    [log_length = 0] and [cursor = -1], outside [[0, log_length - 1]], and
    after the up key the cursor is [0], still outside it. *)
Lemma history_cursor_out_of_range_on_empty_log :
  new_HistoryViewer Demo.silent
    = (entered_viewer Demo.silent, Returned 1%nat) /\
  handlers (world (entered_viewer Demo.silent)) !! 1%nat
    = Some (HistoryViewer 0 (-1)) /\
  ~ cursor_in_range 1 0 (world (entered_viewer Demo.silent)) /\
  handlers
    (world (HistoryViewer_ev_keydown 1 KeySym.UP
              (entered_viewer Demo.silent)).1) !! 1%nat
    = Some (HistoryViewer 0 0) /\
  ~ cursor_in_range 1 0
      (world (HistoryViewer_ev_keydown 1 KeySym.UP
                (entered_viewer Demo.silent)).1).
Proof.
  split; [reflexivity |]. split; [reflexivity |]. split; [| split].
  - intros (c & _ & Hc). lia.
  - reflexivity.
  - intros (c & _ & Hc). lia.
Qed.

Lemma history_cursor_in_range_witness :
  1 <= Z.of_nat (length (messages (world Demo.playing))) /\
  cursor_in_range 1 1 (world (entered_viewer Demo.playing)) /\
  exists s' : State,
    viewer_ops 1 Demo.activity (entered_viewer Demo.playing)
      = (s', Returned tt) /\
    cursor_in_range 1 1 (world s').
Proof.
  assert (Hn : 1 <= Z.of_nat (length (messages (world Demo.playing))))
    by (cbn; lia).
  split; [exact Hn |].
  exact (proj2 (proj2 (history_cursor_in_range Demo.playing Demo.activity)) Hn).
Defined.

Lemma quit_raises_SystemExit_witness :
  handlers (world Demo.game_over) !! 0%nat = Some GameOverEventHandler /\
  dispatch 0 Quit Demo.game_over = (Demo.game_over, Raised SystemExit) /\
  handle_events 0 Quit Demo.game_over = (Demo.game_over, Raised SystemExit) /\
  ev_keydown 0 KeySym.ESCAPE Demo.game_over
    = (Demo.game_over, Raised SystemExit) /\
  handle_events 0 (KeyDown KeySym.ESCAPE) Demo.game_over
    = (Demo.game_over, Raised SystemExit).
Proof.
  split; [reflexivity |].
  destruct (quit_raises_SystemExit 0%nat GameOverEventHandler Demo.game_over
              eq_refl) as (Hdispatch & Hevents & Hescape).
  split; [exact Hdispatch |]. split; [exact Hevents |].
  exact (Hescape (or_intror eq_refl)).
Defined.

Lemma ask_user_default_keydown_witness :
  handlers (world Demo.prompting) !! 0%nat = Some AskUserEventHandler /\
  is_AskUser AskUserEventHandler = true /\
  (KeySym.v ∉ [KeySym.LSHIFT; KeySym.RSHIFT; KeySym.LCTRL;
               KeySym.RCTRL; KeySym.LALT; KeySym.RALT]) /\
  AskUserEventHandler_ev_keydown 0 KeySym.v Demo.prompting
    = on_exit 0 Demo.prompting /\
  on_exit 0 Demo.prompting
    = (switched_to MainGameEventHandler Demo.prompting, Returned None) /\
  active_handler (world (switched_to MainGameEventHandler Demo.prompting))
    = Some MainGameEventHandler.
Proof.
  assert (Hkey : KeySym.v ∉ [KeySym.LSHIFT; KeySym.RSHIFT; KeySym.LCTRL;
                             KeySym.RCTRL; KeySym.LALT; KeySym.RALT]).
  { intros Hin. rewrite !elem_of_cons, elem_of_nil in Hin.
    destruct Hin as [Hin | [Hin | [Hin | [Hin | [Hin | [Hin | []]]]]]];
      discriminate Hin. }
  split; [reflexivity |]. split; [reflexivity |]. split; [exact Hkey |].
  exact (proj1 (proj2 (ask_user_default_keydown 0%nat AskUserEventHandler
                         Demo.prompting KeySym.v eq_refl eq_refl)) Hkey).
Defined.

Lemma history_viewer_empty_log_witness :
  messages (world Demo.silent) = [] /\
  KeySym.PAGEUP ∈ [KeySym.UP; KeySym.DOWN; KeySym.PAGEUP; KeySym.PAGEDOWN] /\
  exists (self : nat) (s1 s2 : State),
    new_HistoryViewer Demo.silent = (s1, Returned self) /\
    handlers (world s1) !! self = Some (HistoryViewer 0 (-1)) /\
    HistoryViewer_ev_keydown self KeySym.PAGEUP s1 = (s2, Returned None) /\
    cursor_of self s2 = Some 0.
Proof.
  assert (Hkey : KeySym.PAGEUP
                 ∈ [KeySym.UP; KeySym.DOWN; KeySym.PAGEUP; KeySym.PAGEDOWN]).
  { do 2 apply list_elem_of_further. apply list_elem_of_here. }
  split; [reflexivity |]. split; [exact Hkey |].
  exact (history_viewer_empty_log Demo.silent KeySym.PAGEUP eq_refl Hkey).
Defined.

(** ** The further properties on the concrete world *)

#[local] Existing Instance DemoMore.rendering.

Lemma main_game_move_keys_witness :
  MOVE_KEYS !! KeySym.y = Some (-1, -1) /\
  MainGameEventHandler_ev_keydown 0 KeySym.y Demo.playing
    = (Demo.playing,
       Returned (Some (BumpAction (player (world Demo.playing)) (-1) (-1)))) /\
  Z.max (Z.abs (-1)) (Z.abs (-1)) = 1.
Proof.
  split; [reflexivity |].
  exact (main_game_move_keys 0%nat Demo.playing KeySym.y (-1) (-1) eq_refl).
Defined.

Lemma move_keys_cover_directions_witness :
  Z.max (Z.abs 1) (Z.abs (-1)) = 1 /\
  exists nav numpad vi : Z,
    nav ∈ [KeySym.UP; KeySym.DOWN; KeySym.LEFT; KeySym.RIGHT;
           KeySym.HOME; KeySym.END; KeySym.PAGEUP; KeySym.PAGEDOWN] /\
    numpad ∈ [KeySym.KP_1; KeySym.KP_2; KeySym.KP_3; KeySym.KP_4;
              KeySym.KP_6; KeySym.KP_7; KeySym.KP_8; KeySym.KP_9] /\
    vi ∈ [KeySym.h; KeySym.j; KeySym.k; KeySym.l;
          KeySym.y; KeySym.u; KeySym.b; KeySym.n] /\
    numpad = KeySym.KP_1 + 3 * (1 - -1) + 1 + 1 /\
    (forall key : Z,
       MOVE_KEYS !! key = Some (1, -1) <-> key ∈ [nav; numpad; vi]) /\
    size (filter (fun entry : Z * (Z * Z) => entry.2 = (1, -1)) MOVE_KEYS)
      = 3%nat.
Proof.
  split; [reflexivity |].
  exact (move_keys_cover_directions 1 (-1) eq_refl).
Defined.

Lemma main_game_command_keys_witness :
  KeySym.KP_5 ∈ WAIT_KEYS /\
  MainGameEventHandler_ev_keydown 0 KeySym.KP_5 Demo.playing
    = (Demo.playing,
       Returned (Some (WaitAction (player (world Demo.playing))))) /\
  MainGameEventHandler_ev_keydown 0 KeySym.g Demo.playing
    = (Demo.playing,
       Returned (Some (PickupAction (player (world Demo.playing))))) /\
  MainGameEventHandler_ev_keydown 0 KeySym.ESCAPE Demo.playing
    = (Demo.playing, Raised SystemExit).
Proof.
  assert (Hwait : KeySym.KP_5 ∈ WAIT_KEYS).
  { apply (bool_decide_unpack _). vm_compute. exact I. }
  split; [exact Hwait |].
  exact (main_game_command_keys 0%nat Demo.playing KeySym.KP_5 Hwait).
Defined.

Lemma main_game_keydown_frame_witness :
  MainGameEventHandler_ev_keydown 0 KeySym.v Demo.playing
    = ((MainGameEventHandler_ev_keydown 0 KeySym.v Demo.playing).1,
       Returned None) /\
  calls (MainGameEventHandler_ev_keydown 0 KeySym.v Demo.playing).1
    = calls Demo.playing /\
  messages (world (MainGameEventHandler_ev_keydown 0 KeySym.v Demo.playing).1)
    = messages (world Demo.playing) /\
  exists new : list Handler,
    handlers (world (MainGameEventHandler_ev_keydown 0 KeySym.v
                       Demo.playing).1)
      = handlers (world Demo.playing) ++ new.
Proof.
  split; [reflexivity |].
  destruct (main_game_keydown_frame 0%nat KeySym.v Demo.playing
              (MainGameEventHandler_ev_keydown 0 KeySym.v Demo.playing).1
              (Returned None) eq_refl)
    as (Hcalls & Hlog & _ & _ & _ & Hnew & _).
  split; [exact Hcalls |]. split; [exact Hlog | exact Hnew].
Defined.

Lemma main_game_mode_keys_witness :
  handlers (world Demo.playing) !! 0%nat = Some MainGameEventHandler /\
  handle_events 0 (KeyDown KeySym.v) Demo.playing
    = (switched_to
         (HistoryViewer
            (Z.of_nat (length (messages (world Demo.playing))))
            (Z.of_nat (length (messages (world Demo.playing))) - 1))
         Demo.playing,
       Returned tt) /\
  handle_events 0 (KeyDown KeySym.i) Demo.playing
    = (switched_to InventoryActivateHandler Demo.playing, Returned tt) /\
  handle_events 0 (KeyDown KeySym.d) Demo.playing
    = (switched_to InventoryDropHandler Demo.playing, Returned tt).
Proof.
  split; [reflexivity |].
  exact (main_game_mode_keys 0%nat Demo.playing eq_refl).
Defined.

Lemma main_game_ignores_other_keys_witness :
  handlers (world Demo.playing) !! 0%nat = Some MainGameEventHandler /\
  MOVE_KEYS !! KeySym.a = None /\
  (KeySym.a ∉ WAIT_KEYS) /\
  (KeySym.a ∉ [KeySym.ESCAPE; KeySym.v; KeySym.g; KeySym.i; KeySym.d]) /\
  handle_events 0 (KeyDown KeySym.a) Demo.playing
    = (Demo.playing, Returned tt).
Proof.
  assert (Hwait : KeySym.a ∉ WAIT_KEYS).
  { apply (bool_decide_unpack _). vm_compute. exact I. }
  assert (Hcmd : KeySym.a ∉ [KeySym.ESCAPE; KeySym.v; KeySym.g; KeySym.i;
                             KeySym.d]).
  { apply (bool_decide_unpack _). vm_compute. exact I. }
  split; [reflexivity |]. split; [reflexivity |].
  split; [exact Hwait |]. split; [exact Hcmd |].
  exact (main_game_ignores_other_keys 0%nat Demo.playing KeySym.a
           eq_refl eq_refl Hwait Hcmd).
Defined.

Lemma game_over_lockout_witness :
  handlers (world Demo.game_over) !! 0%nat = Some GameOverEventHandler /\
  handle_events 0 (KeyDown KeySym.i) Demo.game_over
    = ((handle_events 0 (KeyDown KeySym.i) Demo.game_over).1, Returned tt) /\
  handlers (world (handle_events 0 (KeyDown KeySym.i) Demo.game_over).1)
    = handlers (world Demo.game_over) /\
  event_handler (world (handle_events 0 (KeyDown KeySym.i) Demo.game_over).1)
    = event_handler (world Demo.game_over) /\
  calls (handle_events 0 (KeyDown KeySym.i) Demo.game_over).1
    = calls Demo.game_over.
Proof.
  split; [reflexivity |]. split; [reflexivity |].
  destruct (game_over_lockout 0%nat Demo.game_over
              (handle_events 0 (KeyDown KeySym.i) Demo.game_over).1
              (KeyDown KeySym.i) (Returned tt) eq_refl eq_refl)
    as (Hh & He & _ & _ & _ & Hc & _).
  split; [exact Hh |]. split; [exact He | exact Hc].
Defined.

Lemma mouse_motion_records_location_witness :
  handlers (world Demo.dropping) !! 0%nat = Some InventoryDropHandler /\
  handle_events 0 (MouseMotion 7 9) Demo.dropping
    = (if in_bounds (game_map (world Demo.dropping)) 7 9
       then mkState (set_mouse_location (7, 9) (world Demo.dropping))
              (calls Demo.dropping)
       else Demo.dropping,
       Returned tt).
Proof.
  split; [reflexivity |].
  exact (mouse_motion_records_location 0%nat InventoryDropHandler
           Demo.dropping 7 9 eq_refl).
Defined.

Lemma mouse_click_closes_prompts_witness :
  handlers (world Demo.dropping) !! 0%nat = Some InventoryDropHandler /\
  handle_events 0 MouseButtonDown Demo.dropping
    = (if is_AskUser InventoryDropHandler
       then switched_to MainGameEventHandler Demo.dropping
       else Demo.dropping,
       Returned tt).
Proof.
  split; [reflexivity |].
  exact (mouse_click_closes_prompts 0%nat InventoryDropHandler Demo.dropping
           eq_refl).
Defined.

Lemma history_viewer_home_end_exit_witness :
  handlers (world Demo.viewing) !! 0%nat = Some (HistoryViewer 5 0) /\
  (KeySym.a ∉ [KeySym.UP; KeySym.DOWN; KeySym.PAGEUP; KeySym.PAGEDOWN;
               KeySym.HOME; KeySym.END]) /\
  handle_events 0 (KeyDown KeySym.END) Demo.viewing
    = (with_cursor 0 5 (5 - 1) Demo.viewing, Returned tt) /\
  handle_events 0 (KeyDown KeySym.a) Demo.viewing
    = (switched_to MainGameEventHandler Demo.viewing, Returned tt).
Proof.
  assert (Hother : KeySym.a ∉ [KeySym.UP; KeySym.DOWN; KeySym.PAGEUP;
                               KeySym.PAGEDOWN; KeySym.HOME; KeySym.END]).
  { apply (bool_decide_unpack _). vm_compute. exact I. }
  split; [reflexivity |]. split; [exact Hother |].
  destruct (history_viewer_home_end_exit 0%nat 5 0 Demo.viewing KeySym.a
              eq_refl) as (_ & Hend & Hexit).
  split; [exact Hend | exact (proj1 (Hexit Hother))].
Defined.

Lemma history_viewer_up_down_cycle_witness :
  handlers (world Demo.viewing) !! 0%nat = Some (HistoryViewer 5 0) /\
  0 <= 0 <= 5 - 1 /\
  cursor_of 0 (HistoryViewer_ev_keydown 0 KeySym.DOWN Demo.viewing).1
    = Some ((0 + 1) mod 5) /\
  cursor_of 0 (HistoryViewer_ev_keydown 0 KeySym.UP Demo.viewing).1
    = Some ((0 - 1) mod 5) /\
  cursor_of 0
    (HistoryViewer_ev_keydown 0 KeySym.UP
       (HistoryViewer_ev_keydown 0 KeySym.DOWN Demo.viewing).1).1 = Some 0 /\
  cursor_of 0
    (HistoryViewer_ev_keydown 0 KeySym.DOWN
       (HistoryViewer_ev_keydown 0 KeySym.UP Demo.viewing).1).1 = Some 0.
Proof.
  assert (Hc : 0 <= 0 <= 5 - 1) by lia.
  split; [reflexivity |]. split; [exact Hc |].
  exact (history_viewer_up_down_cycle 0%nat 5 0 Demo.viewing eq_refl Hc).
Defined.

Lemma history_viewer_page_keys_witness :
  handlers (world Demo.viewing) !! 0%nat = Some (HistoryViewer 5 0) /\
  0 <= 0 <= 5 - 1 /\
  exists down up : Z,
    cursor_of 0 (HistoryViewer_ev_keydown 0 KeySym.PAGEDOWN Demo.viewing).1
      = Some down /\
    cursor_of 0 (HistoryViewer_ev_keydown 0 KeySym.PAGEUP Demo.viewing).1
      = Some up /\
    (0 = 5 - 1 -> down = 0) /\
    (0 < 5 - 1 -> 0 < down <= 5 - 1 /\ down = Z.min (0 + 10) (5 - 1)) /\
    (0 = 0 -> up = 5 - 1) /\
    (0 < 0 -> 0 <= up < 0 /\ up = Z.max 0 (0 - 10)).
Proof.
  assert (Hc : 0 <= 0 <= 5 - 1) by lia.
  split; [reflexivity |]. split; [exact Hc |].
  exact (history_viewer_page_keys 0%nat 5 0 Demo.viewing eq_refl Hc).
Defined.

Lemma drop_menu_turn_witness :
  handlers (world Demo.dropping) !! 0%nat = Some InventoryDropHandler /\
  0 <= KeySym.b - KeySym.a <= 26 /\
  inventory_items (player (world Demo.dropping))
      !! Z.to_nat (KeySym.b - KeySym.a) = Some "scroll"%string /\
  perform (DropItem (player (world Demo.dropping)) "scroll"%string)
      (world Demo.dropping)
    = (world Demo.dropping, Returned tt) /\
  handle_events 0 (KeyDown KeySym.b) Demo.dropping
    = (switched_to MainGameEventHandler
         (mkState (update_fov (handle_enemy_turns (world Demo.dropping)))
            (calls Demo.dropping ++
               [CallPerform (DropItem (player (world Demo.dropping))
                               "scroll"%string);
                CallHandleEnemyTurns; CallUpdateFov])),
       Returned tt).
Proof.
  assert (Hrange : 0 <= KeySym.b - KeySym.a <= 26)
    by (unfold KeySym.b, KeySym.a; lia).
  split; [reflexivity |]. split; [exact Hrange |].
  split; [reflexivity |]. split; [reflexivity |].
  exact (drop_menu_turn 0%nat Demo.dropping KeySym.b "scroll"%string
           (world Demo.dropping) eq_refl Hrange eq_refl eq_refl).
Defined.

Lemma inventory_base_not_implemented_witness :
  handlers (world DemoMore.choosing) !! 0%nat = Some InventoryEventHandler /\
  0 <= KeySym.a - KeySym.a <= 26 /\
  inventory_items (player (world DemoMore.choosing))
      !! Z.to_nat (KeySym.a - KeySym.a) = Some "potion"%string /\
  handle_events 0 (KeyDown KeySym.a) DemoMore.choosing
    = (DemoMore.choosing, Raised NotImplementedError).
Proof.
  assert (Hrange : 0 <= KeySym.a - KeySym.a <= 26)
    by (unfold KeySym.a; lia).
  split; [reflexivity |]. split; [exact Hrange |]. split; [reflexivity |].
  exact (inventory_base_not_implemented 0%nat DemoMore.choosing KeySym.a
           "potion"%string eq_refl Hrange eq_refl).
Defined.

Lemma dispatch_keeps_handlers_witness :
  handlers (world Demo.viewing) !! 0%nat = Some (HistoryViewer 5 0) /\
  (forall (item : Item) (p : Actor) (w : World),
     handlers (consumable_get_action item p w).1 = handlers w /\
     event_handler (consumable_get_action item p w).1 = event_handler w) /\
  dispatch 0 (KeyDown KeySym.UP) Demo.viewing
    = ((dispatch 0 (KeyDown KeySym.UP) Demo.viewing).1, Returned None) /\
  handlers_kept 0 (world Demo.viewing)
    (world (dispatch 0 (KeyDown KeySym.UP) Demo.viewing).1).
Proof.
  assert (Hget : forall (item : Item) (p : Actor) (w : World),
            handlers (consumable_get_action item p w).1 = handlers w /\
            event_handler (consumable_get_action item p w).1
              = event_handler w)
    by (intros item p w; split; reflexivity).
  split; [reflexivity |]. split; [exact Hget |]. split; [reflexivity |].
  exact (dispatch_keeps_handlers 0%nat (HistoryViewer 5 0) (KeyDown KeySym.UP)
           Demo.viewing (dispatch 0 (KeyDown KeySym.UP) Demo.viewing).1
           (Returned None) eq_refl Hget eq_refl).
Defined.

Lemma inventory_menu_layout_witness :
  handlers (engine_render (shown DemoMore.drop_menu)) !! 0%nat
    = Some InventoryDropHandler /\
  is_Inventory InventoryDropHandler = true /\
  exists (title : string) (lines : list Draw),
    TITLE InventoryDropHandler = Some title /\
    InventoryEventHandler_on_render 0 DemoMore.drop_menu
      = (mkRenderState (engine_render (shown DemoMore.drop_menu))
           (draws DemoMore.drop_menu ++
              EngineRender ::
              DrawFrame Screen 40 0 (Z.of_nat (String.length title) + 4)
                4 title true (Some (255, 255, 255)) (Some (0, 0, 0)) ::
              lines),
         Returned tt) /\
    length lines = 2%nat /\
    (forall d : Draw,
       d ∈ lines ->
       exists (row : Z) (text : Text),
         d = Print Screen (40 + 1) row text /\ 0 < row < 4 - 1) /\
    (Demo.inventory = [] ->
     lines = [Print Screen (40 + 1) 1 (Plain "(Empty)")]) /\
    (forall (k : nat) (item : Item),
       Demo.inventory !! k = Some item ->
       lines !! k
         = Some (Print Screen (40 + 1) (Z.of_nat k + 1)
                   (ItemLine (97 + Z.of_nat k) (item_name item)))) /\
    ~ (40 <= 12 < 40 + (Z.of_nat (String.length title) + 4)).
Proof.
  split; [reflexivity |]. split; [reflexivity |].
  exact (inventory_menu_layout 0%nat InventoryDropHandler DemoMore.drop_menu
           eq_refl eq_refl).
Defined.

(** With nothing to drop the menu is three rows high and says so. *)
Example empty_drop_menu :
  draws (InventoryEventHandler_on_render 0
           (mkRenderState
              (world (Demo.state_with InventoryDropHandler Demo.welcome []))
              [])).1
    = [EngineRender;
       DrawFrame Screen 40 0 26 3 "Select an item to drop" true
         (Some (255, 255, 255)) (Some (0, 0, 0));
       Print Screen 41 1 (Plain "(Empty)")].
Proof. reflexivity. Qed.

Lemma inventory_label_selects_witness :
  handlers (engine_render (shown DemoMore.drop_menu)) !! 0%nat
    = Some InventoryDropHandler /\
  is_Inventory InventoryDropHandler = true /\
  inventory_items (player (engine_render (shown DemoMore.drop_menu)))
      !! 1%nat = Some "scroll"%string /\
  (1 <= 25)%nat /\
  (draws (InventoryEventHandler_on_render 0 DemoMore.drop_menu).1
       !! (length (draws DemoMore.drop_menu) + 2 + 1)%nat
     = Some (Print Screen (40 + 1) (Z.of_nat 1 + 1)
               (ItemLine (97 + Z.of_nat 1) (item_name "scroll"%string)))) /\
  ev_keydown 0 (97 + Z.of_nat 1)
      (mkState (engine_render (shown DemoMore.drop_menu)) [])
    = on_item_selected 0 "scroll"%string
        (mkState (engine_render (shown DemoMore.drop_menu)) []).
Proof.
  assert (Hk : (1 <= 25)%nat) by lia.
  split; [reflexivity |]. split; [reflexivity |].
  split; [reflexivity |]. split; [exact Hk |].
  exact (inventory_label_selects 0%nat InventoryDropHandler
           DemoMore.drop_menu [] 1%nat "scroll"%string
           eq_refl eq_refl eq_refl Hk).
Defined.

Lemma history_viewer_shows_prefix_witness :
  handlers (engine_render (shown DemoMore.log_view)) !! 0%nat
    = Some (HistoryViewer 3 1) /\
  6 <= 80 /\ 6 <= 50 /\
  HistoryViewer_on_render 0 80 50 DemoMore.log_view
    = (mkRenderState (engine_render (shown DemoMore.log_view))
         (draws DemoMore.log_view ++
            [EngineRender;
             NewConsole (80 - 6) (50 - 6);
             DrawFrame LogConsole 0 0 (80 - 6) (50 - 6) "" true None None;
             PrintBoxCentered LogConsole 0 0 (80 - 6) 1
               "┤Message history├";
             RenderMessages LogConsole 1 1 (80 - 6 - 2) (50 - 6 - 2)
               (py_slice_to
                  (messages (engine_render (shown DemoMore.log_view)))
                  (1 + 1));
             Blit LogConsole Screen 3 3]),
       Returned tt) /\
  0 <= 1
    < Z.of_nat (length (messages (engine_render (shown DemoMore.log_view)))) /\
  py_slice_to (messages (engine_render (shown DemoMore.log_view))) (1 + 1)
    = take 2 (messages (engine_render (shown DemoMore.log_view))) /\
  length (py_slice_to (messages (engine_render (shown DemoMore.log_view)))
            (1 + 1)) = 2%nat /\
  last (py_slice_to (messages (engine_render (shown DemoMore.log_view)))
          (1 + 1))
    = messages (engine_render (shown DemoMore.log_view)) !! 1%nat.
Proof.
  assert (Hw : 6 <= 80) by lia.
  assert (Hh : 6 <= 50) by lia.
  assert (Hc : 0 <= 1 < Z.of_nat (length (messages
                 (engine_render (shown DemoMore.log_view)))))
    by (cbn; lia).
  assert (Hl : handlers (engine_render (shown DemoMore.log_view)) !! 0%nat
               = Some (HistoryViewer 3 1)) by reflexivity.
  destruct (history_viewer_shows_prefix 0%nat 3 1 DemoMore.log_view 80 50
              Hl) as (Hdraw & _ & Hvisible & _).
  split; [exact Hl |]. split; [exact Hw |]. split; [exact Hh |].
  split; [exact (Hdraw Hw Hh) |]. split; [exact Hc |].
  exact (Hvisible Hc).
Defined.

(** On a console of five by five the panel cannot be made. *)
Example history_viewer_on_small_console :
  HistoryViewer_on_render 0 5 5 DemoMore.log_view
    = (mkRenderState (shown DemoMore.log_view) [EngineRender],
       Raised (OtherError "ValueError")).
Proof. reflexivity. Qed.
